(** * xtreme-pawsx: evaluation engine and PAWS-X normalisation

    A shallow embedding of [src/evaluate.py] and [src/preprocess.py].

    Modelling conventions.
    - A Python [str] is a Rocq [string]; each [ascii] stands for one code
      point below 256.
    - A Python [float] score is an exact rational of [Q]: the development
      is about the arithmetic the code performs, not about binary64
      rounding.  Division is guarded where Python raises
      [ZeroDivisionError].
    - A Python [dict] is an association list in insertion order; [d[k] = v]
      replaces in place or appends.
    - A raised exception is the [Raise] case of [result]; nothing in the
      two source files catches an exception, so [bind] propagates it.
    - The file system is a value: the characters of each file, and for
      each directory the sub-directory names [os.walk] lists first. *)

From Stdlib Require Import String Ascii List Bool Arith ZArith QArith Qround Lia.
Import ListNotations.

Open Scope list_scope.
Open Scope string_scope.

(** ** Exceptions and the error monad *)

Inductive exn : Type :=
| KeyError (key : string)
| FileNotFoundError (path : string)
| StopIteration
| AssertionError (msg : string)
| ZeroDivisionError
| IndexError
| TypeError
| IsADirectoryError (path : string)
| NotADirectoryError (path : string).

Inductive result (A : Type) : Type :=
| Ok (a : A)
| Raise (e : exn).

Arguments Ok {A} a.
Arguments Raise {A} e.

Definition bind {A B : Type} (r : result A) (k : A -> result B) : result B :=
  match r with
  | Ok a => k a
  | Raise e => Raise e
  end.

Notation "x <- r ;; k" := (bind r (fun x => k))
  (at level 61, r at next level, right associativity).
Notation "' p <- r ;; k" := (bind r (fun x => let p := x in k))
  (at level 61, p pattern, r at next level, right associativity).

Definition raises {A : Type} (r : result A) : bool :=
  match r with
  | Ok _ => false
  | Raise _ => true
  end.

(** ** Python strings *)

Definition NL : string := String "010"%char EmptyString.
Definition TAB : string := String "009"%char EmptyString.
Definition CR : string := String "013"%char EmptyString.
Definition DQUOTE : string := String "034"%char EmptyString.

(** [str.isspace] on the code points below 256. *)
Definition isspace (c : ascii) : bool :=
  let n := nat_of_ascii c in
  ((9 <=? n)%nat && (n <=? 13)%nat) || ((28 <=? n)%nat && (n <=? 32)%nat)
  || (n =? 133)%nat || (n =? 160)%nat.

Fixpoint lstrip (s : string) : string :=
  match s with
  | EmptyString => EmptyString
  | String c r => if isspace c then lstrip r else s
  end.

Fixpoint rstrip (s : string) : string :=
  match s with
  | EmptyString => EmptyString
  | String c r =>
      match rstrip r with
      | EmptyString => if isspace c then EmptyString else String c EmptyString
      | r' => String c r'
      end
  end.

(** [s.strip()] *)
Definition strip (s : string) : string := rstrip (lstrip s).

(** [s.split(sep)] for a one-character separator: never an empty list. *)
Fixpoint split (sep : ascii) (s : string) : list string :=
  match s with
  | EmptyString => [EmptyString]
  | String c r =>
      if Ascii.eqb c sep then EmptyString :: split sep r
      else match split sep r with
           | l :: ls => String c l :: ls
           | [] => [String c EmptyString]
           end
  end.

(** [sep.join(items)] *)
Definition join (sep : string) (items : list string) : string :=
  String.concat sep items.

(** The lines a text file yields when iterated: each keeps its newline, a
    last line without one is yielded as it is. *)
Fixpoint readlines (text : string) : list string :=
  match text with
  | EmptyString => []
  | String c r =>
      if Ascii.eqb c "010"%char then String c EmptyString :: readlines r
      else match readlines r with
           | l :: ls => String c l :: ls
           | [] => [String c EmptyString]
           end
  end.

(** What reading in text mode does to line ends: a carriage return, alone
    or before a newline, is handed over as a newline. *)
Fixpoint universal_newlines (text : string) : string :=
  match text with
  | EmptyString => EmptyString
  | String c r =>
      if Ascii.eqb c "013"%char then
        match r with
        | String c' r' =>
            if Ascii.eqb c' "010"%char then String "010"%char (universal_newlines r')
            else String "010"%char (universal_newlines r)
        | EmptyString => String "010"%char EmptyString
        end
      else String c (universal_newlines r)
  end.

Fixpoint startswith (p s : string) : bool :=
  match p, s with
  | EmptyString, _ => true
  | String a p', String b s' => Ascii.eqb a b && startswith p' s'
  | String _ _, EmptyString => false
  end.

Fixpoint endswith_char (c : ascii) (s : string) : bool :=
  match s with
  | EmptyString => false
  | String a EmptyString => Ascii.eqb a c
  | String _ r => endswith_char c r
  end.

Definition contains_char (c : ascii) (s : string) : bool :=
  existsb (Ascii.eqb c) (list_ascii_of_string s).

(** [os.path.join] on POSIX, one step and the whole call. *)
Definition path_join2 (path b : string) : string :=
  if startswith "/" b then b
  else if String.eqb path "" || endswith_char "/"%char path then path ++ b
  else path ++ "/" ++ b.

Definition path_join (a : string) (rest : list string) : string :=
  fold_left path_join2 rest a.

(** [x in l] for a list of strings. *)
Definition mem (x : string) (l : list string) : bool :=
  existsb (String.eqb x) l.

(** ** Python dictionaries *)

Definition dict (V : Type) : Type := list (string * V).

Section Dict.
Context {V : Type}.

Fixpoint dict_get (k : string) (d : dict V) : option V :=
  match d with
  | [] => None
  | (k', v) :: d' => if String.eqb k k' then Some v else dict_get k d'
  end.

(** [d[k] = v] *)
Fixpoint dict_set (k : string) (v : V) (d : dict V) : dict V :=
  match d with
  | [] => [(k, v)]
  | (k', v') :: d' =>
      if String.eqb k k' then (k', v) :: d' else (k', v') :: dict_set k v d'
  end.

(** [k in d] *)
Definition dict_has (k : string) (d : dict V) : bool :=
  match dict_get k d with
  | Some _ => true
  | None => false
  end.

(** [d[k]] on a plain dict *)
Definition dict_item (d : dict V) (k : string) : result V :=
  match dict_get k d with
  | Some v => Ok v
  | None => Raise (KeyError k)
  end.

Definition dict_keys (d : dict V) : list string := map fst d.
Definition dict_values (d : dict V) : list V := map snd d.

(** [d.update(other)] *)
Definition dict_update (d other : dict V) : dict V :=
  fold_left (fun acc kv => dict_set (fst kv) (snd kv) acc) other d.
End Dict.

(** [set(l)] as the list of its distinct elements, first occurrences kept. *)
Fixpoint distinct (l : list string) : list string :=
  match l with
  | [] => []
  | x :: r => x :: filter (fun y => negb (String.eqb x y)) (distinct r)
  end.

(** [a - b] and [a == b] on sets of strings. *)
Definition set_diff (a b : list string) : list string :=
  filter (fun x => negb (mem x b)) a.

Definition subset (a b : list string) : bool :=
  forallb (fun x => mem x b) a.

Definition set_eq (a b : list string) : bool :=
  subset a b && subset b a.

(** [sum(values)]: Python starts from 0 and adds from the left. *)
Definition sum (values : list Q) : Q := fold_left Qplus values 0%Q.

Definition len {A : Type} (l : list A) : Z := Z.of_nat (length l).

(** [x / n] for a float or int [x] and an int [n]. *)
Definition divide (x : Q) (n : Z) : result Q :=
  if (n =? 0)%Z then Raise ZeroDivisionError else Ok (x / inject_Z n)%Q.

(** ** The file system *)

Record filesystem : Type := {
  (** directory path |-> the sub-directory names [next(os.walk(path))[1]];
      a directory a file is to be created in has an entry here *)
  dirs : dict (list string);
  (** file path |-> the characters the file holds *)
  files : dict string
}.

(** [open(file, 'r')], iterated. *)
Definition open_lines (fs : filesystem) (file : string) : result (list string) :=
  match dict_get file (files fs) with
  | Some text => Ok (readlines (universal_newlines text))
  | None => Raise (FileNotFoundError file)
  end.

(** [next(os.walk(folder))[1]]: [os.walk] yields nothing for a path that is
    not a directory, and [next] then raises. *)
Definition walk_dirs (fs : filesystem) (folder : string) : result (list string) :=
  match dict_get folder (dirs fs) with
  | Some names => Ok names
  | None => Raise StopIteration
  end.

(** ** evaluate.py: readers *)

(** The loop of [read_tag]: [labels] and [example] are the two local lists. *)
Fixpoint read_tag_loop (lines : list string) (labels : list (list string))
    (example : list string) : list (list string) :=
  match lines with
  | [] => labels
  | line :: rest =>
      let line := strip line in
      if negb (String.eqb line "") then read_tag_loop rest labels (example ++ [line])
      else read_tag_loop rest (labels ++ [example]) []
  end.

Definition read_tag (fs : filesystem) (file : string) : result (list (list string)) :=
  lines <- open_lines fs file ;;
  Ok (read_tag_loop lines [] []).

Definition read_label (fs : filesystem) (file : string) : result (list string) :=
  lines <- open_lines fs file ;;
  Ok (map strip lines).

(** ** evaluate.py: metrics *)

(** The three scorers imported from the [seqeval] package, which is not
    part of the repository: they are taken as given. *)
Record Seqeval : Type := {
  f1_score : list string -> list string -> Q;
  precision_score : list string -> list string -> Q;
  recall_score : list string -> list string -> Q
}.

Definition f1 (seqeval : Seqeval) (labels predictions : list string)
    (language : option string) : result (dict Q) :=
  let f1 := f1_score seqeval labels predictions in
  let precision := precision_score seqeval labels predictions in
  let recall := recall_score seqeval labels predictions in
  Ok [("f1", f1 * 100); ("precision", precision * 100); ("recall", recall * 100)]%Q.

(** [int(p == l)] *)
Definition int_eq (p l : string) : Z := if String.eqb p l then 1%Z else 0%Z.

(** [sum([int(p == l) for p, l in zip(predictions, labels)])] *)
Definition count_correct (predictions labels : list string) : Z :=
  fold_left Z.add (map (fun pl => int_eq (fst pl) (snd pl)) (combine predictions labels)) 0%Z.

Definition accuracy (labels predictions : list string)
    (language : option string) : result (dict Q) :=
  let correct := count_correct predictions labels in
  accuracy <- divide (inject_Z correct) (len predictions) ;;
  Ok [("accuracy", accuracy * 100)]%Q.

(** ** evaluate.py: the module-level tables *)

(** A registered reader gives one label per example, as [read_label], the
    only reader the module registers, does; a registered metric takes
    [labels], [predictions] and [language]. *)
Definition reader : Type := filesystem -> string -> result (list string).
Definition metric : Type := list string -> list string -> option string -> result (dict Q).

(** The four tables the engine consults.  The functions below take them as
    an argument; [module_tables] is what the module defines. *)
Record Tables : Type := {
  GROUP2TASK : dict (list string);
  TASK2LANGS : dict (list string);
  READER_FUNCTION : dict reader;
  METRIC_FUNCTION : dict metric
}.

Definition module_tables (seqeval : Seqeval) : Tables := {|
  GROUP2TASK := [("classification", ["pawsx"; "xnli"])];
  TASK2LANGS := [("pawsx", split ","%char "de,en,es,fr,ja,ko,zh")];
  READER_FUNCTION := [("pawsx", read_label)];
  METRIC_FUNCTION := [("pawsx", f1 seqeval)]
|}.

(** ** evaluate.py: the engine *)

(** A value stored in a task's [score]: the per-language scores of one
    metric, or a number ([avg_<metric>], [avg_metric]). *)
Inductive value : Type :=
| Langs (by_lang : dict Q)
| Num (q : Q).

(** The tasks whose example counts are not compared (line 90). *)
Definition unchecked_tasks : list string := ["bucc2018"; "mlqa"; "tydiqa"; "xquad"].

Definition mismatch_message (prediction_file label_file task : string) : string :=
  "Number of examples in " ++ prediction_file ++ " and " ++ label_file
  ++ " not matched in " ++ task ++ " task".

(** [f"test-{lg}.{suffix}"] *)
Definition test_file (lg suffix : string) : string := "test-" ++ lg ++ "." ++ suffix.

(** [score[metric][lg] = v] on a [defaultdict(dict)] *)
Definition set_score (score : dict (dict Q)) (metric lg : string) (v : Q) : dict (dict Q) :=
  let by_lang := match dict_get metric score with Some d => d | None => [] end in
  dict_set metric (dict_set lg v by_lang) score.

(** [for metric in score_lg: score[metric][lg] = score_lg[metric]] *)
Definition add_scores (score : dict (dict Q)) (lg : string) (score_lg : dict Q) : dict (dict Q) :=
  fold_left (fun sc kv => set_score sc (fst kv) lg (snd kv)) score_lg score.

(** Lines 130-132: [avg_score], filled metric by metric. *)
Fixpoint average_scores (items : dict (dict Q)) (avg_score : dict Q) : result (dict Q) :=
  match items with
  | [] => Ok avg_score
  | (m, by_lang) :: rest =>
      a <- divide (sum (dict_values by_lang)) (len by_lang) ;;
      average_scores rest (dict_set ("avg_" ++ m) a avg_score)
  end.

(** Line 133: [score.update(avg_score)]; from here on [score] holds both
    kinds of value. *)
Definition update_with_averages (score : dict (dict Q)) (avg_score : dict Q) : dict value :=
  dict_update (map (fun kv => (fst kv, Langs (snd kv))) score)
              (map (fun kv => (fst kv, Num (snd kv))) avg_score).

(** [score[k]] on the [defaultdict(dict)]: a missing key reads as [{}]. *)
Definition score_item (score : dict value) (k : string) : value :=
  match dict_get k score with
  | Some v => v
  | None => Langs []
  end.

(** [detailed_scores[task]['avg_metric']] as a summand of [sum]. *)
Definition avg_metric_of (detailed_scores : dict (dict value)) (task : string) : result Q :=
  score <- dict_item detailed_scores task ;;
  match score_item score "avg_metric" with
  | Num q => Ok q
  | Langs _ => Raise TypeError
  end.

(** [sum(detailed_scores[task]['avg_metric'] for task in tasks)] *)
Fixpoint sum_avg_metric (detailed_scores : dict (dict value)) (tasks : list string)
    (acc : Q) : result Q :=
  match tasks with
  | [] => Ok acc
  | task :: rest =>
      v <- avg_metric_of detailed_scores task ;;
      sum_avg_metric detailed_scores rest (acc + v)%Q
  end.

Section Engine.
Variable tables : Tables.
Variable fs : filesystem.

Definition evaluate_one_task (prediction_file label_file task : string)
    (language : option string) : result (dict Q) :=
  read <- dict_item (READER_FUNCTION tables) task ;;
  predictions <- read fs prediction_file ;;
  read <- dict_item (READER_FUNCTION tables) task ;;
  labels <- read fs label_file ;;
  _ <- (if negb (mem task unchecked_tasks) then
          if (len predictions =? len labels)%Z then Ok tt
          else Raise (AssertionError (mismatch_message prediction_file label_file task))
        else Ok tt) ;;
  score <- dict_item (METRIC_FUNCTION tables) task ;;
  score labels predictions language.

(** Lines 118-128: the loop over the languages of one task. *)
Fixpoint score_languages (prediction_folder label_folder task suffix : string)
    (langs : list string) (score : dict (dict Q)) : result (dict (dict Q)) :=
  match langs with
  | [] => Ok score
  | lg :: rest =>
      let prediction_file := path_join prediction_folder [task; test_file lg suffix] in
      let label_file := path_join label_folder [task; test_file lg suffix] in
      score_lg <- evaluate_one_task prediction_file label_file task (Some lg) ;;
      score_languages prediction_folder label_folder task suffix rest
                      (add_scores score lg score_lg)
  end.

(** Lines 134-140: the task's [avg_metric]. *)
Definition summary_metric (task : string) (score : dict value) : result (dict value) :=
  qa <- dict_item (GROUP2TASK tables) "qa" ;;
  if mem task qa then
    match score_item score "avg_exact_match", score_item score "avg_f1" with
    | Num em, Num f => Ok (dict_set "avg_metric" (Num ((em + f) / 2)%Q) score)
    | _, _ => Raise TypeError
    end
  else if dict_has "avg_f1" score then
    Ok (dict_set "avg_metric" (score_item score "avg_f1") score)
  else if dict_has "avg_accuracy" score then
    Ok (dict_set "avg_metric" (score_item score "avg_accuracy") score)
  else Ok score.

(** Lines 115-141: the body of the loop over the tasks, for a task found
    in both folders. *)
Definition evaluate_task (prediction_folder label_folder task : string)
    (langs : list string) : result (dict value) :=
  qa <- dict_item (GROUP2TASK tables) "qa" ;;
  let suffix := if mem task qa then "json" else "tsv" in
  score <- score_languages prediction_folder label_folder task suffix langs [] ;;
  avg_score <- average_scores score [] ;;
  summary_metric task (update_with_averages score avg_score).

(** Lines 113-141: [for task, langs in TASK2LANGS.items()]. *)
Fixpoint evaluate_tasks (prediction_folder label_folder : string)
    (prediction_tasks label_tasks : list string) (items : dict (list string))
    (detailed_scores : dict (dict value)) : result (dict (dict value)) :=
  match items with
  | [] => Ok detailed_scores
  | (task, langs) :: rest =>
      if mem task prediction_tasks && mem task label_tasks then
        score <- evaluate_task prediction_folder label_folder task langs ;;
        evaluate_tasks prediction_folder label_folder prediction_tasks label_tasks rest
                       (dict_set task score detailed_scores)
      else
        evaluate_tasks prediction_folder label_folder prediction_tasks label_tasks rest
                       detailed_scores
  end.

(** Lines 155-158.  A Python set has no fixed iteration order; the order
    of the summands is that of the table, which the exact sum does not
    depend on. *)
Definition overall_all_task (detailed_scores : dict (dict value)) : result (dict Q) :=
  let all_tasks := distinct (dict_keys (TASK2LANGS tables)) in
  let available_tasks := distinct (dict_keys detailed_scores) in
  if set_eq all_tasks available_tasks then
    total <- sum_avg_metric detailed_scores all_tasks 0 ;;
    q <- divide total (len all_tasks) ;;
    Ok [("all_task", q)]
  else Ok [].

(** Lines 161-165: [for group, group_tasks in GROUP2TASK.items()]. *)
Fixpoint overall_groups (detailed_scores : dict (dict value))
    (groups : dict (list string)) (overall_scores : dict Q) : result (dict Q) :=
  match groups with
  | [] => Ok overall_scores
  | (group, group_tasks) :: rest =>
      let available_tasks := distinct (dict_keys detailed_scores) in
      if (len (set_diff (distinct group_tasks) available_tasks) =? 0)%Z then
        total <- sum_avg_metric detailed_scores group_tasks 0 ;;
        q <- divide total (len group_tasks) ;;
        overall_groups detailed_scores rest (dict_set group q overall_scores)
      else overall_groups detailed_scores rest overall_scores
  end.

(** Lines 150-165: the display logic. *)
Definition overall (detailed_scores : dict (dict value)) : result (dict Q) :=
  overall_scores <- overall_all_task detailed_scores ;;
  overall_groups detailed_scores (GROUP2TASK tables) overall_scores.

(** [evaluate(prediction_folder, label_folder)], with [verbose] left at
    its default [False]. *)
Definition evaluate (prediction_folder label_folder : string)
    : result (dict Q * dict (dict value)) :=
  prediction_tasks <- walk_dirs fs prediction_folder ;;
  label_tasks <- walk_dirs fs label_folder ;;
  detailed_scores <- evaluate_tasks prediction_folder label_folder
                       prediction_tasks label_tasks (TASK2LANGS tables) [] ;;
  overall_scores <- overall detailed_scores ;;
  Ok (overall_scores, detailed_scores).
End Engine.

(** ** preprocess.py *)

(** [items[i]] *)
Definition list_item (items : list string) (i : nat) : result string :=
  match nth_error items i with
  | Some x => Ok x
  | None => Raise IndexError
  end.

(** Lines 26-34 of the helper: the rows gathered in [data]; [i] is the
    index [enumerate] gives the line. *)
Fixpoint collect_rows (lines : list string) (i : nat) (data : list (list string))
    : result (list (list string)) :=
  match lines with
  | [] => Ok data
  | line :: rest =>
      if (i =? 0)%nat then collect_rows rest (S i) data
      else
        let items := split "009"%char (strip line) in
        item1 <- list_item items 1 ;;
        let sent1 := join " " (split " "%char (strip item1)) in
        item2 <- list_item items 2 ;;
        let sent2 := join " " (split " "%char (strip item2)) in
        label <- list_item items 3 ;;
        collect_rows rest (S i) (data ++ [[sent1; sent2; label]])
  end.

(** [csv.writer(fout, delimiter='\t').writerow(row)]: the text written.  A
    field holding the delimiter, a double quote or a line-end character is
    quoted, its quotes doubled. *)
Fixpoint double_quotes (s : string) : string :=
  match s with
  | EmptyString => EmptyString
  | String c r =>
      if Ascii.eqb c "034"%char then String c (String c (double_quotes r))
      else String c (double_quotes r)
  end.

Definition csv_field (field : string) : string :=
  if contains_char "009"%char field || contains_char "034"%char field
     || contains_char "013"%char field || contains_char "010"%char field
  then DQUOTE ++ double_quotes field ++ DQUOTE
  else field.

Definition writerow (row : list string) : string :=
  match row with
  | [EmptyString] => DQUOTE ++ DQUOTE ++ CR ++ NL
  | _ => join TAB (map csv_field row) ++ CR ++ NL
  end.

(** [os.path.dirname]: the path up to its last slash, without the slashes
    that end it unless it is made of slashes only. *)
Fixpoint upto_last_slash (path : string) : string :=
  match path with
  | EmptyString => EmptyString
  | String c r =>
      if contains_char "/"%char r then String c (upto_last_slash r)
      else if Ascii.eqb c "/"%char then String c EmptyString
      else EmptyString
  end.

Fixpoint rstrip_slashes (s : string) : string :=
  match s with
  | EmptyString => EmptyString
  | String c r =>
      match rstrip_slashes r with
      | EmptyString => if Ascii.eqb c "/"%char then EmptyString else String c EmptyString
      | r' => String c r'
      end
  end.

Definition only_slashes (s : string) : bool :=
  forallb (Ascii.eqb "/"%char) (list_ascii_of_string s).

Definition dirname (path : string) : string :=
  let head := upto_last_slash path in
  if only_slashes head then head else rstrip_slashes head.

(** The file system in which [path] holds [text]. *)
Definition with_file (fs : filesystem) (path text : string) : filesystem :=
  {| dirs := dirs fs; files := dict_set path text (files fs) |}.

(** Whether [open(outfile, 'w')] succeeds, and the error it raises when it
    does not: for an empty name, a name that ends in a slash or names a
    directory, a directory of [outfile] that is missing or is a file.  The
    working directory and the root are there; paths are taken as written. *)
Definition open_for_writing (fs : filesystem) (outfile : string) : result unit :=
  if String.eqb outfile "" then Raise (FileNotFoundError outfile)
  else if endswith_char "/"%char outfile then Raise (IsADirectoryError outfile)
  else if negb (only_slashes (dirname outfile) || dict_has (dirname outfile) (dirs fs)) then
    if dict_has (dirname outfile) (files fs) then Raise (NotADirectoryError outfile)
    else Raise (FileNotFoundError outfile)
  else if dict_has outfile (dirs fs) then Raise (IsADirectoryError outfile)
  else Ok tt.

(** [open(outfile, 'w')] followed by the writes: when the file can be
    opened it holds [text] afterwards. *)
Definition write_file (fs : filesystem) (outfile text : string) : result filesystem :=
  _ <- open_for_writing fs outfile ;;
  Ok (with_file fs outfile text).

(** [os.path.exists] *)
Definition path_exists (fs : filesystem) (path : string) : bool :=
  dict_has path (dirs fs) || dict_has path (files fs).

(** What a run has done so far: the file system and the lines printed. *)
Definition world : Type := (filesystem * list string)%type.

(** The nested helper.  It is declared with the one parameter [infile];
    [args] are the positional arguments of a call, and [outfile] is the
    variable of the enclosing function its body reads. *)
Definition _preprocess_one_file (outfile : string) (args : list string)
    (fs : filesystem) : result unit * filesystem :=
  match args with
  | [infile] =>
      match (lines <- open_lines fs infile ;; collect_rows lines 0 []) with
      | Ok data =>
          match write_file fs outfile (String.concat "" (map writerow data)) with
          | Ok fs' => (Ok tt, fs')
          | Raise e => (Raise e, fs)
          end
      | Raise e => (Raise e, fs)
      end
  | _ => (Raise TypeError, fs)
  end.

(** The arguments [argparse] hands over. *)
Record Namespace : Type := {
  data_dir : string;
  output_dir : string
}.

Definition split2file : dict string :=
  [("train", "train"); ("test", "test_2k"); ("dev", "dev_2k")].

Section Preprocess.
(** [os.makedirs]: its outcome is the host's. *)
Variable makedirs : filesystem -> string -> result filesystem.
Variable args : Namespace.

(** Lines 44-50: [for split in ['train', 'test', 'dev']]. *)
Fixpoint preprocess_splits (lang : string) (splits : list string) (w : world)
    : result unit * world :=
  match splits with
  | [] => (Ok tt, w)
  | split :: rest =>
      match dict_item split2file split with
      | Raise e => (Raise e, w)
      | Ok file =>
          let infile := path_join (data_dir args) [lang; file ++ ".tsv"] in
          let outfile := path_join (output_dir args) [split ++ "-" ++ lang ++ ".tsv"] in
          match _preprocess_one_file outfile [infile; outfile] (fst w) with
          | (Raise e, fs) => (Raise e, (fs, snd w))
          | (Ok _, fs) =>
              preprocess_splits lang rest
                (fs, (snd w ++ [("finish preprocessing " ++ outfile)%string])%list)
          end
      end
  end.

(** Lines 43-50: [for lang in ['en', 'de', 'es', 'fr', 'ja', 'ko', 'zh']]. *)
Fixpoint preprocess_langs (langs : list string) (w : world) : result unit * world :=
  match langs with
  | [] => (Ok tt, w)
  | lang :: rest =>
      match preprocess_splits lang ["train"; "test"; "dev"] w with
      | (Raise e, w') => (Raise e, w')
      | (Ok _, w') => preprocess_langs rest w'
      end
  end.

(** Lines 40-41. *)
Definition ensure_output_dir (fs : filesystem) : result filesystem :=
  if negb (path_exists fs (output_dir args)) then makedirs fs (output_dir args)
  else Ok fs.

Definition pawsx_preprocess (w : world) : result unit * world :=
  match ensure_output_dir (fst w) with
  | Raise e => (Raise e, w)
  | Ok fs => preprocess_langs ["en"; "de"; "es"; "fr"; "ja"; "ko"; "zh"] (fs, snd w)
  end.
End Preprocess.

(** ** Inputs used in the examples below *)

(** A stand-in for [seqeval] that scores every input [q]. *)
Definition constant_seqeval (q : Q) : Seqeval := {|
  f1_score := fun _ _ => q;
  precision_score := fun _ _ => q;
  recall_score := fun _ _ => q
|}.

(** [n] lines, each holding the label [label]. *)
Definition label_lines (label : string) (n : nat) : string :=
  String.concat "" (repeat (label ++ NL) n).

(** [folder/pawsx/test-<lg>.tsv |-> text] for each [lg] of [langs]. *)
Definition pawsx_files (folder : string) (langs : list string) (text : string) : dict string :=
  map (fun lg => (path_join folder ["pawsx"; test_file lg "tsv"], text)) langs.

Definition pawsx_langs : list string := ["de"; "en"; "es"; "fr"; "ja"; "ko"; "zh"].

(** Both roots hold a [pawsx] folder with a file for each of the seven
    languages, two examples each. *)
Definition complete_run : filesystem := {|
  dirs := [("predictions", ["pawsx"]); ("labels", ["pawsx"])];
  files := (pawsx_files "predictions" pawsx_langs (label_lines "1" 2)
           ++ pawsx_files "labels" pawsx_langs (label_lines "1" 2))%list
|}.

(** As above for [en] and [fr]; for [de] only the label file exists. *)
Definition run_without_de : filesystem := {|
  dirs := [("predictions", ["pawsx"]); ("labels", ["pawsx"])];
  files := (pawsx_files "predictions" ["en"; "fr"] (label_lines "1" 2)
           ++ pawsx_files "labels" ["en"; "de"; "fr"] (label_lines "1" 2))%list
|}.

(** Ten predicted labels against eleven gold labels, for each language. *)
Definition run_with_mismatch : filesystem := {|
  dirs := [("predictions", ["pawsx"]); ("labels", ["pawsx"])];
  files := (pawsx_files "predictions" pawsx_langs (label_lines "1" 10)
           ++ pawsx_files "labels" pawsx_langs (label_lines "1" 11))%list
|}.

(** A tagged file whose second example is not followed by a blank line. *)
Definition tagged_text : string :=
  "B-PER" ++ NL ++ "O" ++ NL ++ NL ++ "B-LOC" ++ NL ++ "O" ++ NL.

Definition tagged_run : filesystem := {|
  dirs := [];
  files := [("test-en.tsv", tagged_text)]
|}.

(** A raw PAWS-X file: the header, then one row whose first sentence has
    two spaces in a row. *)
Definition raw_text : string :=
  "id" ++ TAB ++ "sentence1" ++ TAB ++ "sentence2" ++ TAB ++ "label" ++ NL
  ++ "7" ++ TAB ++ "A  b" ++ TAB ++ "c d" ++ TAB ++ "1" ++ NL.

Definition raw_run : filesystem := {|
  dirs := [];
  files := [("x-final/en/train.tsv", raw_text)]
|}.

(** The raw file once the output directory [paws_x] has been created. *)
Definition prepared_run : filesystem := {|
  dirs := [("paws_x", [])];
  files := files raw_run
|}.

(** [os.makedirs] on a host where it succeeds: the directory is listed,
    with no sub-directory. *)
Definition makedirs_ok (fs : filesystem) (path : string) : result filesystem :=
  Ok {| dirs := dict_set path [] (dirs fs); files := files fs |}.

(** The module's tables completed with what the engine's code refers to
    and the module leaves out: the ["qa"] group, and the second member
    [xnli] of the classification group, read with [read_label] and scored
    with [accuracy].  They serve to watch the engine on two tasks. *)
Definition tables_with_xnli (seqeval : Seqeval) : Tables := {|
  GROUP2TASK := [("classification", ["pawsx"; "xnli"]);
                 ("qa", ["xquad"; "mlqa"; "tydiqa"])];
  TASK2LANGS := [("pawsx", pawsx_langs); ("xnli", ["en"; "de"])];
  READER_FUNCTION := [("pawsx", read_label); ("xnli", read_label)];
  METRIC_FUNCTION := [("pawsx", f1 seqeval); ("xnli", accuracy)]
|}.



(** [folder/xnli/test-<lg>.tsv |-> text] for each [lg] of [langs]. *)
Definition xnli_files (folder : string) (langs : list string) (text : string) : dict string :=
  map (fun lg => (path_join folder ["xnli"; test_file lg "tsv"], text)) langs.

(** The [score] of a task scored 0.9 by every scorer on [en] and [fr]. *)
Definition two_language_score : dict (dict Q) :=
  [("f1", [("en", (9 # 10) * 100); ("fr", (9 # 10) * 100)]);
   ("precision", [("en", (9 # 10) * 100); ("fr", (9 # 10) * 100)]);
   ("recall", [("en", (9 # 10) * 100); ("fr", (9 # 10) * 100)])]%Q.

(** The files of [complete_run] and matching [xnli] files; the label root
    also holds a folder of a task that is not registered. *)
Definition complete_two_task_run : filesystem := {|
  dirs := [("predictions", ["pawsx"; "xnli"]); ("labels", ["udpos"; "xnli"; "pawsx"])];
  files := (files complete_run
            ++ xnli_files "predictions" ["en"; "de"] (label_lines "neutral" 3)
            ++ xnli_files "labels" ["en"; "de"] (label_lines "neutral" 3))%list
|}.

(** As [complete_two_task_run], with one file changed: the [es] labels of
    [pawsx], the third of its seven languages, hold eleven lines against
    two predictions. *)
Definition late_mismatch_run : filesystem := {|
  dirs := dirs complete_two_task_run;
  files := dict_set "labels/pawsx/test-es.tsv" (label_lines "1" 11)
                    (files complete_two_task_run)
|}.

(** As [complete_two_task_run], with one file changed: the [de] labels of
    [xnli], the last language of the last task, hold four lines against
    three predictions. *)
Definition last_mismatch_run : filesystem := {|
  dirs := dirs complete_two_task_run;
  files := dict_set "labels/xnli/test-de.tsv" (label_lines "neutral" 4)
                    (files complete_two_task_run)
|}.

(** ** Vocabulary of the statements *)

(** The number of positions at which the predicted label is the gold one. *)
Definition matching_positions (predictions labels : list string) : nat :=
  length (filter (fun i => String.eqb (nth i predictions "") (nth i labels ""))
                 (seq 0 (length predictions))).

(** The arithmetic mean of a list of scores. *)
Definition mean (values : list Q) : Q := (sum values / inject_Z (len values))%Q.

(** The same mean written out on the list alone: every score added to
    what those after it add up to, over how many scores there are. *)
Fixpoint added_up (values : list Q) : Q :=
  match values with
  | [] => 0%Q
  | v :: rest => (v + added_up rest)%Q
  end.

Definition arithmetic_mean (values : list Q) : Q :=
  (added_up values / inject_Z (Z.of_nat (length values)))%Q.

(** What the loop over the languages keeps true of [score]: one entry per
    metric, each a non-empty mapping from distinct languages of [langs]. *)
Definition scored_over (langs : list string) (score : dict (dict Q)) : Prop :=
  NoDup (dict_keys score)
  /\ forall m by_lang, In (m, by_lang) score ->
       by_lang <> [] /\ NoDup (dict_keys by_lang) /\ incl (dict_keys by_lang) langs.

(** The task has an entry in [detailed_scores] that holds a number under
    [avg_metric]. *)
Definition produced (detailed_scores : dict (dict value)) (task : string) : Prop :=
  exists score q,
    dict_get task detailed_scores = Some score
    /\ dict_get "avg_metric" score = Some (Num q).

(** That number (0 for a task that produced none). *)
Definition avg_metric_value (detailed_scores : dict (dict value)) (task : string) : Q :=
  match dict_get task detailed_scores with
  | Some score =>
      match dict_get "avg_metric" score with
      | Some (Num q) => q
      | _ => 0%Q
      end
  | None => 0%Q
  end.



(** Tables as a module writes them: the keys of a dictionary are distinct,
    no group is named ["all_task"], no group is empty, and some task is
    registered. *)
Definition well_formed (tables : Tables) : Prop :=
  NoDup (dict_keys (GROUP2TASK tables))
  /\ dict_get "all_task" (GROUP2TASK tables) = None
  /\ (forall group members, In (group, members) (GROUP2TASK tables) -> members <> [])
  /\ TASK2LANGS tables <> []
  /\ NoDup (dict_keys (TASK2LANGS tables)).

(** A line that [strip] empties: it ends an example of a tagged file. *)
Definition blank (line : string) : bool := String.eqb (strip line) "".

(** The tags of a tagged file, in order: its lines that are not blank,
    stripped. *)
Definition tags (lines : list string) : list string :=
  map strip (filter (fun line => negb (blank line)) lines).

(** The tags that come after the last blank line (all of them when no line
    is blank). *)
Fixpoint unterminated (lines : list string) : list string :=
  match lines with
  | [] => []
  | line :: rest =>
      if blank line || existsb blank rest then unterminated rest
      else strip line :: unterminated rest
  end.

(** The labels [read_label] gives for a file (none for a file it cannot
    read). *)
Definition labels_at (fs : filesystem) (file : string) : list string :=
  match read_label fs file with
  | Ok labels => labels
  | Raise _ => []
  end.

(** For one of the three scorers, its score times 100 for each language of
    [langs], on the label file and the prediction file of that language. *)
Definition per_language (fs : filesystem) (prediction_folder label_folder suffix : string)
    (scorer : list string -> list string -> Q) (langs : list string) : dict Q :=
  map (fun lg =>
         (lg, (scorer (labels_at fs (path_join label_folder ["pawsx"; test_file lg suffix]))
                      (labels_at fs (path_join prediction_folder
                                               ["pawsx"; test_file lg suffix]))
               * 100)%Q))
      langs.

(** The [score] of [pawsx] once the languages [langs] have been scored. *)
Definition pawsx_score (seqeval : Seqeval) (fs : filesystem)
    (prediction_folder label_folder suffix : string) (langs : list string)
    : dict (dict Q) :=
  match langs with
  | [] => []
  | _ :: _ =>
      [("f1", per_language fs prediction_folder label_folder suffix
                           (f1_score seqeval) langs);
       ("precision", per_language fs prediction_folder label_folder suffix
                                  (precision_score seqeval) langs);
       ("recall", per_language fs prediction_folder label_folder suffix
                               (recall_score seqeval) langs)]
  end.

(** The tab-separated fields of a raw line, and the row the helper keeps
    of it: the second and third fields stripped, and the fourth. *)
Definition fields (line : string) : list string := split "009"%char (strip line).

Definition row_of (line : string) : list string :=
  [strip (nth 1 (fields line) ""); strip (nth 2 (fields line) ""); nth 3 (fields line) ""].

Definition four_fields (line : string) : bool := (4 <=? length (fields line))%nat.

(** The examples of a tagged file, read off its lines from the first one
    on: a blank line closes an example, a line that is not blank joins,
    stripped, the example that the next blank line closes, and belongs to
    no example when no blank line follows. *)
Fixpoint examples_of (lines : list string) : list (list string) :=
  match lines with
  | [] => []
  | line :: rest =>
      if blank line then [] :: examples_of rest
      else match examples_of rest with
           | [] => []
           | example :: examples => (strip line :: example) :: examples
           end
  end.

(** * Properties *)

(** ** The lookup of the [qa] group *)

Lemma module_tables_no_qa (seqeval : Seqeval) :
  dict_item (GROUP2TASK (module_tables seqeval)) "qa" = Raise (KeyError "qa").
Proof. reflexivity. Qed.

Lemma evaluate_task_module_tables (seqeval : Seqeval) (fs : filesystem)
    (prediction_folder label_folder task : string) (langs : list string) :
  evaluate_task (module_tables seqeval) fs prediction_folder label_folder task langs
  = Raise (KeyError "qa").
Proof. reflexivity. Qed.

(** Whatever the two roots hold, once both list [pawsx] the call ends in
    the failed lookup. *)
Lemma evaluate_module_tables_eligible (seqeval : Seqeval) (fs : filesystem)
    (prediction_folder label_folder : string) (prediction_tasks label_tasks : list string) :
  walk_dirs fs prediction_folder = Ok prediction_tasks ->
  walk_dirs fs label_folder = Ok label_tasks ->
  mem "pawsx" prediction_tasks = true ->
  mem "pawsx" label_tasks = true ->
  evaluate (module_tables seqeval) fs prediction_folder label_folder = Raise (KeyError "qa").
Proof.
  intros Hp Hl Mp Ml. unfold evaluate. rewrite Hp, Hl. cbn [bind].
  change (TASK2LANGS (module_tables seqeval)) with [("pawsx", pawsx_langs)].
  cbn [evaluate_tasks]. rewrite Mp, Ml. reflexivity.
Qed.

(** C1: with a [pawsx] folder in both roots, holding a file for every
    language, choosing the suffix does not complete: [GROUP2TASK] has no
    ["qa"] entry and [evaluate] raises [KeyError], whatever the scorers. *)
Theorem evaluate_pawsx_suffix_lookup_fails :
  forall seqeval : Seqeval,
    evaluate (module_tables seqeval) complete_run "predictions" "labels"
    = Raise (KeyError "qa").
Proof.
  intros seqeval.
  apply (evaluate_module_tables_eligible seqeval complete_run "predictions" "labels"
           ["pawsx"] ["pawsx"]); reflexivity.
Qed.

(** C6: for every task and every [score], the block that should choose
    [avg_metric] raises [KeyError]: its first test reads
    [GROUP2TASK["qa"]], which the module's table lacks. *)
Theorem summary_metric_lookup_fails :
  forall (seqeval : Seqeval) (task : string) (score : dict value),
    summary_metric (module_tables seqeval) task score = Raise (KeyError "qa").
Proof. reflexivity. Qed.

(** With a ["qa"] group in the table, the block is the rule of lines
    134-140: the mean of [avg_exact_match] and [avg_f1] for a task of the
    group, else [avg_f1], else [avg_accuracy], else no [avg_metric]. *)
Lemma summary_metric_rule (tables : Tables) (task : string) (score : dict value)
    (qa : list string) :
  dict_get "qa" (GROUP2TASK tables) = Some qa ->
  summary_metric tables task score
  = if mem task qa then
      match dict_get "avg_exact_match" score, dict_get "avg_f1" score with
      | Some (Num em), Some (Num f) =>
          Ok (dict_set "avg_metric" (Num ((em + f) / 2)%Q) score)
      | _, _ => Raise TypeError
      end
    else
      match dict_get "avg_f1" score with
      | Some v => Ok (dict_set "avg_metric" v score)
      | None =>
          match dict_get "avg_accuracy" score with
          | Some v => Ok (dict_set "avg_metric" v score)
          | None => Ok score
          end
      end.
Proof.
  intros Hqa. unfold summary_metric, dict_item, dict_has, score_item.
  rewrite Hqa. cbn [bind].
  destruct (mem task qa).
  - destruct (dict_get "avg_exact_match" score) as [[d|em]|];
      destruct (dict_get "avg_f1" score) as [[d'|f]|]; reflexivity.
  - destruct (dict_get "avg_f1" score); [reflexivity|].
    destruct (dict_get "avg_accuracy" score); reflexivity.
Qed.

(** The engine at work on tables that declare the ["qa"] group: both tasks
    are scored, the unregistered folder is ignored, and the overall and
    the group entry are the mean of the two [avg_metric], 95. *)
Example evaluate_on_completed_tables :
  exists overall_scores detailed_scores all_task classification,
    evaluate (tables_with_xnli (constant_seqeval (9 # 10))) complete_two_task_run
             "predictions" "labels"
    = Ok (overall_scores, detailed_scores)
    /\ dict_keys detailed_scores = ["pawsx"; "xnli"]
    /\ overall_scores = [("all_task", all_task); ("classification", classification)]
    /\ (all_task == 95)%Q /\ (classification == 95)%Q.
Proof.
  do 4 eexists. split; [vm_compute; reflexivity|].
  split; [reflexivity|]. split; [reflexivity|]. split; reflexivity.
Qed.

(** ** The tagged-sequence reader *)

(** A last line that is not blank leaves the result as it was: the example
    it belongs to is never appended. *)
Lemma read_tag_loop_last_line (lines : list string) (last : string) :
  String.eqb (strip last) "" = false ->
  forall labels example,
    read_tag_loop (lines ++ [last]) labels example = read_tag_loop lines labels example.
Proof.
  intros Hlast. induction lines as [|l lines IH]; intros labels example.
  - cbn. rewrite Hlast. reflexivity.
  - cbn [app read_tag_loop]. destruct (negb (String.eqb (strip l) "")); apply IH.
Qed.

(** C7: on a file whose last example is not followed by a blank line,
    [read_tag] returns the first example only; the example in progress at
    the end of the file is dropped. *)
Theorem read_tag_drops_unterminated_example :
  read_tag tagged_run "test-en.tsv" = Ok [["B-PER"; "O"]].
Proof. reflexivity. Qed.

(** ** The accuracy metric *)

Lemma fold_left_Zadd_acc (xs : list Z) (a : Z) :
  fold_left Z.add xs a = (a + fold_left Z.add xs 0)%Z.
Proof.
  revert a. induction xs as [|x xs IH]; intros a; cbn.
  - lia.
  - rewrite IH, (IH x). lia.
Qed.

Lemma count_correct_cons (p l : string) (predictions labels : list string) :
  count_correct (p :: predictions) (l :: labels)
  = (int_eq p l + count_correct predictions labels)%Z.
Proof.
  unfold count_correct. cbn. apply fold_left_Zadd_acc.
Qed.

Lemma filter_seq_shift (f : nat -> bool) (n a : nat) :
  length (filter f (seq (S a) n)) = length (filter (fun i => f (S i)) (seq a n)).
Proof.
  revert a. induction n as [|n IH]; intros a; cbn.
  - reflexivity.
  - destruct (f (S a)); cbn; rewrite IH; reflexivity.
Qed.

Lemma matching_positions_cons (p l : string) (predictions labels : list string) :
  matching_positions (p :: predictions) (l :: labels)
  = ((if String.eqb p l then 1 else 0) + matching_positions predictions labels)%nat.
Proof.
  unfold matching_positions. cbn [length seq filter nth].
  destruct (String.eqb p l); cbn [length]; rewrite filter_seq_shift; reflexivity.
Qed.

Lemma count_correct_matching (predictions labels : list string) :
  length predictions = length labels ->
  count_correct predictions labels = Z.of_nat (matching_positions predictions labels).
Proof.
  revert labels. induction predictions as [|p ps IH]; intros [|l ls] Hlen;
    try discriminate.
  - reflexivity.
  - rewrite count_correct_cons, matching_positions_cons, IH by (cbn in Hlen; lia).
    unfold int_eq. destruct (String.eqb p l); lia.
Qed.

(** C8: for predictions and labels of one positive length [n], with [k]
    positions where the two agree, [accuracy] returns the one entry
    [accuracy |-> (k / n) * 100], which is [100 * k / n]; for
    ["a","b","c"] against ["a","x","c"] that is 200/3, 66.67 to two
    decimals. *)
Theorem accuracy_is_percentage_of_matches :
  (forall (labels predictions : list string) (language : option string),
      length predictions = length labels ->
      (0 < length predictions)%nat ->
      exists pct : Q,
        accuracy labels predictions language = Ok [("accuracy", pct)]
        /\ pct = (inject_Z (Z.of_nat (matching_positions predictions labels))
                  / inject_Z (len predictions) * 100)%Q
        /\ (pct == 100 * inject_Z (Z.of_nat (matching_positions predictions labels))
                   / inject_Z (len predictions))%Q)
  /\ (exists pct : Q,
        accuracy ["a"; "x"; "c"] ["a"; "b"; "c"] None = Ok [("accuracy", pct)]
        /\ (pct == 200 # 3)%Q
        /\ Qfloor (pct * 100 + (1 # 2)) = 6667%Z).
Proof.
  split.
  - intros labels predictions language Hlen Hpos.
    eexists. split; [|split; [reflexivity|]].
    + unfold accuracy, divide.
      destruct (len predictions =? 0)%Z eqn:E.
      * unfold len in E. apply Z.eqb_eq in E. lia.
      * cbn [bind]. rewrite count_correct_matching by exact Hlen. reflexivity.
    + field. unfold len. intros H.
      apply (Qeq_bool_neq (inject_Z (Z.of_nat (length predictions))) 0); [|exact H].
      destruct (length predictions); [lia|reflexivity].
  - eexists. split; [reflexivity|]. split; reflexivity.
Qed.

Lemma accuracy_is_percentage_of_matches_witness :
  exists pct : Q,
    accuracy ["1"; "1"; "0"; "0"] ["1"; "0"; "0"; "0"] (Some "en") = Ok [("accuracy", pct)]
    /\ pct = (inject_Z 3 / inject_Z 4 * 100)%Q
    /\ (pct == 100 * inject_Z 3 / inject_Z 4)%Q.
Proof.
  apply (proj1 accuracy_is_percentage_of_matches
           ["1"; "1"; "0"; "0"] ["1"; "0"; "0"; "0"] (Some "en")).
  - reflexivity.
  - cbn. lia.
Defined.

(** ** The normalisation helper *)

Lemma concat_cons_char (sep : string) (a : ascii) (x : string) (ls : list string) :
  String.concat sep (String a x :: ls) = String a (String.concat sep (x :: ls)).
Proof. destruct ls; reflexivity. Qed.

Lemma concat_cons_empty (sep x : string) (ls : list string) :
  String.concat sep (EmptyString :: x :: ls) = sep ++ String.concat sep (x :: ls).
Proof. reflexivity. Qed.

Lemma split_not_nil (sep : ascii) (s : string) : split sep s <> [].
Proof.
  destruct s as [|c r]; cbn; [discriminate|].
  destruct (Ascii.eqb c sep); [discriminate|].
  destruct (split sep r); discriminate.
Qed.

(** Splitting at a character and joining with it gives the string back. *)
Lemma join_split (sep : ascii) (s : string) :
  join (String sep EmptyString) (split sep s) = s.
Proof.
  unfold join. induction s as [|c r IH]; cbn [split].
  - reflexivity.
  - destruct (Ascii.eqb c sep) eqn:E.
    + apply Ascii.eqb_eq in E. subst c.
      pose proof (split_not_nil sep r) as Hne.
      destruct (split sep r) as [|x ls]; [contradiction|].
      rewrite concat_cons_empty, IH. reflexivity.
    + pose proof (split_not_nil sep r) as Hne.
      destruct (split sep r) as [|x ls]; [contradiction|].
      rewrite concat_cons_char, IH. reflexivity.
Qed.

(** C9: the normalisation does not collapse runs of spaces.
    [' '.join(s.split(' '))] is [s] for every [s]; the helper, given the
    raw file as the one argument it declares and an output directory that
    exists, writes the row ["7", "A  b", "c d", "1"] with its two spaces;
    and [pawsx_preprocess] on that file creates the directory, raises
    [TypeError] and writes no line at all. *)
Theorem preprocess_keeps_runs_of_spaces :
  (forall s : string, join " " (split " "%char s) = s)
  /\ _preprocess_one_file "paws_x/train-en.tsv" ["x-final/en/train.tsv"] prepared_run
     = (Ok tt,
        with_file prepared_run "paws_x/train-en.tsv"
          ("A  b" ++ TAB ++ "c d" ++ TAB ++ "1" ++ CR ++ NL))
  /\ pawsx_preprocess makedirs_ok {| data_dir := "x-final"; output_dir := "paws_x" |}
       (raw_run, [])
     = (Raise TypeError, (prepared_run, [])).
Proof.
  split; [|split].
  - intros s. apply (join_split " "%char).
  - reflexivity.
  - reflexivity.
Qed.

(** ** The call of the helper *)

Lemma preprocess_one_file_two_arguments (outfile a b : string) (fs : filesystem) :
  _preprocess_one_file outfile [a; b] fs = (Raise TypeError, fs).
Proof. reflexivity. Qed.

(** C10: [pawsx_preprocess] never ends normally.  Once the output
    directory is there, its first call of the helper, with the two
    arguments [infile] and [outfile], raises [TypeError]: nothing has been
    printed and no file has been written. *)
Theorem pawsx_preprocess_raises_TypeError
    (makedirs : filesystem -> string -> result filesystem)
    (args : Namespace) (w : world) :
  raises (fst (pawsx_preprocess makedirs args w)) = true
  /\ forall fs : filesystem,
       ensure_output_dir makedirs args (fst w) = Ok fs ->
       pawsx_preprocess makedirs args w = (Raise TypeError, (fs, snd w)).
Proof.
  unfold pawsx_preprocess.
  destruct (ensure_output_dir makedirs args (fst w)) as [fs|e].
  - split.
    + reflexivity.
    + intros fs' H. injection H as <-. reflexivity.
  - split; [reflexivity|]. intros fs' H. discriminate.
Qed.

Lemma pawsx_preprocess_raises_TypeError_witness :
  ensure_output_dir makedirs_ok
    {| data_dir := "x-final"; output_dir := "paws_x" |} raw_run
  = Ok {| dirs := [("paws_x", [])]; files := files raw_run |}
  /\ pawsx_preprocess makedirs_ok
       {| data_dir := "x-final"; output_dir := "paws_x" |} (raw_run, [])
     = (Raise TypeError, ({| dirs := [("paws_x", [])]; files := files raw_run |}, [])).
Proof.
  split.
  - reflexivity.
  - apply (proj2 (pawsx_preprocess_raises_TypeError makedirs_ok
                    {| data_dir := "x-final"; output_dir := "paws_x" |} (raw_run, []))).
    reflexivity.
Defined.

(** ** Dictionaries *)

Section DictFacts.
Context {V : Type}.
Implicit Types (d : dict V) (k : string) (v : V).

Lemma dict_get_set_same k v d : dict_get k (dict_set k v d) = Some v.
Proof.
  induction d as [|[k' v'] d IH]; cbn.
  - rewrite String.eqb_refl. reflexivity.
  - destruct (String.eqb k k') eqn:E; cbn; rewrite E; [reflexivity|exact IH].
Qed.

Lemma dict_get_set_other k k' v d :
  k <> k' -> dict_get k (dict_set k' v d) = dict_get k d.
Proof.
  intros Hne. induction d as [|[k0 v0] d IH]; cbn.
  - apply String.eqb_neq in Hne. rewrite Hne. reflexivity.
  - destruct (String.eqb k' k0) eqn:E; cbn.
    + apply String.eqb_eq in E. subst k0.
      apply String.eqb_neq in Hne. rewrite Hne. reflexivity.
    + destruct (String.eqb k k0); [reflexivity|exact IH].
Qed.

Lemma dict_get_None k d : dict_get k d = None <-> ~ In k (dict_keys d).
Proof.
  induction d as [|[k' v'] d IH]; cbn.
  - intuition.
  - destruct (String.eqb k k') eqn:E.
    + apply String.eqb_eq in E. subst. split; [discriminate|]. intros H. exfalso. auto.
    + apply String.eqb_neq in E. rewrite IH. intuition congruence.
Qed.

Lemma dict_get_In k v d : dict_get k d = Some v -> In (k, v) d.
Proof.
  induction d as [|[k' v'] d IH]; cbn; [discriminate|].
  destruct (String.eqb k k') eqn:E.
  - apply String.eqb_eq in E. intros [= ->]. subst. left. reflexivity.
  - intros H. right. exact (IH H).
Qed.

Lemma In_dict_get k v d : NoDup (dict_keys d) -> In (k, v) d -> dict_get k d = Some v.
Proof.
  induction d as [|[k' v'] d IH]; cbn; intros Hnd Hin; [contradiction|].
  inversion Hnd as [|? ? Hnotin Hnd']; subst.
  destruct Hin as [[= -> ->]|Hin].
  - rewrite String.eqb_refl. reflexivity.
  - destruct (String.eqb k k') eqn:E.
    + apply String.eqb_eq in E. subst. exfalso. apply Hnotin.
      apply (in_map fst) in Hin. exact Hin.
    + exact (IH Hnd' Hin).
Qed.

Lemma dict_has_In k d : dict_has k d = true <-> In k (dict_keys d).
Proof.
  unfold dict_has. destruct (dict_get k d) eqn:E.
  - split; [|reflexivity]. intros _. apply dict_get_In in E.
    apply (in_map fst) in E. exact E.
  - split; [discriminate|]. intros H. apply dict_get_None in E. contradiction.
Qed.

Lemma dict_keys_set k k' v d :
  In k (dict_keys (dict_set k' v d)) <-> k = k' \/ In k (dict_keys d).
Proof.
  induction d as [|[k0 v0] d IH]; cbn.
  - intuition.
  - destruct (String.eqb k' k0) eqn:E; cbn.
    + apply String.eqb_eq in E. subst. intuition.
    + rewrite IH. intuition.
Qed.

Lemma dict_set_NoDup k v d : NoDup (dict_keys d) -> NoDup (dict_keys (dict_set k v d)).
Proof.
  induction d as [|[k0 v0] d IH]; cbn; intros Hnd.
  - constructor; [intros []|constructor].
  - inversion Hnd as [|? ? Hnotin Hnd']; subst.
    destruct (String.eqb k k0) eqn:E; cbn.
    + constructor; assumption.
    + constructor; [|exact (IH Hnd')].
      intros Hin. apply dict_keys_set in Hin. destruct Hin as [->|Hin].
      * rewrite String.eqb_refl in E. discriminate.
      * contradiction.
Qed.

Lemma dict_set_In k k' v v' d :
  In (k, v) (dict_set k' v' d) -> (k = k' /\ v = v') \/ In (k, v) d.
Proof.
  induction d as [|[k0 v0] d IH]; cbn.
  - intros [[= <- <-]|[]]. left. split; reflexivity.
  - destruct (String.eqb k' k0) eqn:E; cbn.
    + apply String.eqb_eq in E. subst.
      intros [[= <- <-]|H]; [left; split; reflexivity|right; right; exact H].
    + intros [H|H]; [right; left; exact H|].
      destruct (IH H) as [H'|H']; [left; exact H'|right; right; exact H'].
Qed.

Lemma dict_set_not_nil k v d : dict_set k v d <> [].
Proof.
  destruct d as [|[k0 v0] d]; cbn; [discriminate|].
  destruct (String.eqb k k0); discriminate.
Qed.

Lemma dict_update_keys_NoDup d other :
  NoDup (dict_keys d) -> NoDup (dict_keys (dict_update d other)).
Proof.
  unfold dict_update. revert d.
  induction other as [|[k v] other IH]; intros d Hnd; cbn.
  - exact Hnd.
  - apply IH. apply dict_set_NoDup. exact Hnd.
Qed.

(** After [d.update(other)], a key of [other] reads as in [other], any
    other key as in [d]. *)
Lemma dict_get_update k d other :
  NoDup (dict_keys other) ->
  dict_get k (dict_update d other)
  = match dict_get k other with
    | Some v => Some v
    | None => dict_get k d
    end.
Proof.
  unfold dict_update. revert d.
  induction other as [|[k' v'] other IH]; intros d Hnd; cbn.
  - reflexivity.
  - inversion Hnd as [|? ? Hnotin Hnd']; subst.
    rewrite (IH _ Hnd').
    destruct (String.eqb k k') eqn:E.
    + apply String.eqb_eq in E. subst k'.
      assert (dict_get k other = None) as -> by (apply dict_get_None; exact Hnotin).
      apply dict_get_set_same.
    + apply String.eqb_neq in E.
      rewrite (dict_get_set_other k k' v' d E). reflexivity.
Qed.
End DictFacts.

Lemma dict_keys_map {A B : Type} (f : A -> B) (d : dict A) :
  dict_keys (map (fun kv => (fst kv, f (snd kv))) d) = dict_keys d.
Proof.
  unfold dict_keys. rewrite map_map. reflexivity.
Qed.

Lemma dict_get_map {A B : Type} (f : A -> B) (k : string) (d : dict A) :
  dict_get k (map (fun kv => (fst kv, f (snd kv))) d) = option_map f (dict_get k d).
Proof.
  induction d as [|[k' v'] d IH]; cbn; [reflexivity|].
  destruct (String.eqb k k'); [reflexivity|exact IH].
Qed.

Lemma mem_In (x : string) (l : list string) : mem x l = true <-> In x l.
Proof.
  unfold mem. rewrite existsb_exists. split.
  - intros [y [Hin Heq]]. apply String.eqb_eq in Heq. subst. exact Hin.
  - intros Hin. exists x. split; [exact Hin|apply String.eqb_refl].
Qed.

(** ** Per-task averages *)

Lemma scored_over_nil (langs : list string) : scored_over langs [].
Proof.
  split; [constructor|]. intros m by_lang [].
Qed.

Lemma set_score_scored_over (langs : list string) (score : dict (dict Q))
    (m lg : string) (v : Q) :
  In lg langs -> scored_over langs score -> scored_over langs (set_score score m lg v).
Proof.
  intros Hlg [Hnd Hall]. unfold set_score. split.
  - apply dict_set_NoDup. exact Hnd.
  - intros m' d' Hin. apply dict_set_In in Hin. destruct Hin as [[-> ->]|Hin].
    + assert (NoDup (dict_keys (match dict_get m score with Some d => d | None => [] end))
              /\ incl (dict_keys (match dict_get m score with Some d => d | None => [] end)) langs)
        as [Hnd0 Hincl0].
      { destruct (dict_get m score) as [d|] eqn:E.
        - apply dict_get_In in E. destruct (Hall _ _ E) as (_ & H1 & H2). split; assumption.
        - split; [constructor|]. intros x []. }
      split; [apply dict_set_not_nil|]. split.
      * apply dict_set_NoDup. exact Hnd0.
      * intros x Hx. apply dict_keys_set in Hx. destruct Hx as [->|Hx]; [exact Hlg|].
        apply Hincl0. exact Hx.
    + apply Hall in Hin. exact Hin.
Qed.

Lemma add_scores_scored_over (langs : list string) (lg : string) (score_lg : dict Q)
    (score : dict (dict Q)) :
  In lg langs -> scored_over langs score -> scored_over langs (add_scores score lg score_lg).
Proof.
  intros Hlg. unfold add_scores. revert score.
  induction score_lg as [|[m v] rest IH]; intros score Hsc; cbn.
  - exact Hsc.
  - apply IH. apply set_score_scored_over; assumption.
Qed.

Lemma score_languages_scored_over (tables : Tables) (fs : filesystem)
    (prediction_folder label_folder task suffix : string) (all_langs langs : list string)
    (score score' : dict (dict Q)) :
  incl langs all_langs ->
  scored_over all_langs score ->
  score_languages tables fs prediction_folder label_folder task suffix langs score = Ok score' ->
  scored_over all_langs score'.
Proof.
  revert score. induction langs as [|lg rest IH]; intros score Hincl Hsc Hrun; cbn in Hrun.
  - injection Hrun as <-. exact Hsc.
  - destruct (evaluate_one_task tables fs _ _ task (Some lg)) as [score_lg|e];
      cbn [bind] in Hrun; [|discriminate].
    apply (IH (add_scores score lg score_lg)).
    + intros x Hx. apply Hincl. right. exact Hx.
    + apply add_scores_scored_over; [apply Hincl; left; reflexivity|exact Hsc].
    + exact Hrun.
Qed.

Lemma avg_name_injective (m m' : string) : "avg_" ++ m = "avg_" ++ m' -> m = m'.
Proof. intros H. injection H as H. exact H. Qed.

Lemma len_dict_values (d : dict Q) : len (dict_values d) = len d.
Proof. unfold len, dict_values. rewrite length_map. reflexivity. Qed.

Lemma Qplus_0_r_same (x : Q) : (x + 0)%Q = x.
Proof.
  destruct x as [n d]. unfold Qplus. cbn [Qnum Qden].
  rewrite Z.mul_1_r, Z.add_0_r, Pos.mul_1_r. reflexivity.
Qed.

Lemma Qplus_0_l_same (x : Q) : (0 + x)%Q = x.
Proof.
  destruct x as [n d]. unfold Qplus. cbn [Qnum Qden]. rewrite Z.mul_1_r. reflexivity.
Qed.

Lemma Qplus_assoc_same (x y z : Q) : (x + y + z)%Q = (x + (y + z))%Q.
Proof.
  destruct x as [a b], y as [c d], z as [e f]. unfold Qplus. cbn [Qnum Qden].
  f_equal; [|symmetry; apply Pos.mul_assoc].
  rewrite !Pos2Z.inj_mul. ring.
Qed.

Lemma fold_left_Qplus (values : list Q) :
  forall acc, fold_left Qplus values acc = (acc + added_up values)%Q.
Proof.
  induction values as [|v rest IH]; intros acc; cbn [fold_left added_up].
  - symmetry. apply Qplus_0_r_same.
  - rewrite IH. apply Qplus_assoc_same.
Qed.

(** Python's [sum], which adds from the left starting at 0, gives what the
    list adds up to. *)
Lemma sum_added_up (values : list Q) : sum values = added_up values.
Proof. unfold sum. rewrite fold_left_Qplus. apply Qplus_0_l_same. Qed.

Lemma mean_arithmetic_mean (values : list Q) : mean values = arithmetic_mean values.
Proof. unfold mean, arithmetic_mean, len. rewrite sum_added_up. reflexivity. Qed.

Lemma divide_mean (by_lang : dict Q) :
  by_lang <> [] ->
  divide (sum (dict_values by_lang)) (len by_lang) = Ok (mean (dict_values by_lang)).
Proof.
  intros Hne. unfold divide, mean. rewrite len_dict_values.
  destruct (len by_lang =? 0)%Z eqn:E; [|reflexivity].
  apply Z.eqb_eq in E. unfold len in E. destruct by_lang; [contradiction|cbn in E; lia].
Qed.

(** The loop of lines 131-132 ends normally on non-empty mappings, gives
    each metric its mean and leaves the other keys of [avg_score] alone. *)
Lemma average_scores_spec (items : dict (dict Q)) :
  NoDup (dict_keys items) ->
  (forall m by_lang, In (m, by_lang) items -> by_lang <> []) ->
  forall avg_score, NoDup (dict_keys avg_score) ->
  exists avg_score',
    average_scores items avg_score = Ok avg_score'
    /\ NoDup (dict_keys avg_score')
    /\ (forall m by_lang, In (m, by_lang) items ->
          dict_get ("avg_" ++ m) avg_score' = Some (mean (dict_values by_lang)))
    /\ (forall k, (forall m, In m (dict_keys items) -> k <> "avg_" ++ m) ->
          dict_get k avg_score' = dict_get k avg_score).
Proof.
  induction items as [|[m0 d0] rest IH]; intros Hnd Hne avg_score Havg.
  - exists avg_score. repeat split; try assumption. intros m by_lang [].
  - cbn [dict_keys map fst] in Hnd. inversion Hnd as [|? ? Hnotin Hnd']; subst.
    cbn [average_scores]. rewrite divide_mean by (apply (Hne m0); left; reflexivity).
    cbn [bind].
    destruct (IH Hnd' (fun m d H => Hne m d (or_intror H))
                 (dict_set ("avg_" ++ m0) (mean (dict_values d0)) avg_score)
                 (dict_set_NoDup _ _ _ Havg))
      as (avg' & Hrun & Hnd'' & Hin & Hframe).
    exists avg'. split; [exact Hrun|]. split; [exact Hnd''|]. split.
    + intros m by_lang [[= -> ->]|H]; [|exact (Hin _ _ H)].
      rewrite Hframe.
      * apply dict_get_set_same.
      * intros m' Hm' Heq. apply avg_name_injective in Heq. subst m'. contradiction.
    + intros k Hk. rewrite Hframe.
      * apply dict_get_set_other. apply Hk. left. reflexivity.
      * intros m Hm. apply Hk. right. exact Hm.
Qed.




(** ** The display logic *)

Lemma In_distinct (x : string) (l : list string) : In x (distinct l) <-> In x l.
Proof.
  induction l as [|y r IH]; cbn; [reflexivity|].
  rewrite filter_In, IH.
  destruct (String.eqb y x) eqn:E.
  - apply String.eqb_eq in E. subst. intuition.
  - apply String.eqb_neq in E. cbn. intuition.
Qed.

Lemma subset_incl (a b : list string) : subset a b = true <-> incl a b.
Proof.
  unfold subset, incl. rewrite forallb_forall.
  split; intros H x Hx; apply mem_In; apply H; exact Hx.
Qed.

Lemma set_diff_empty (a b : list string) :
  (len (set_diff a b) =? 0)%Z = true <-> incl a b.
Proof.
  unfold set_diff, len, incl.
  induction a as [|x a IH]; cbn [filter].
  - split; [intros _ y []|reflexivity].
  - destruct (mem x b) eqn:E; cbn [negb].
    + rewrite IH. apply mem_In in E. split.
      * intros H y [<-|Hy]; [exact E|apply H; exact Hy].
      * intros H y Hy. apply H. right. exact Hy.
    + split.
      * intros H. apply Z.eqb_eq in H. cbn in H. lia.
      * intros H. assert (mem x b = true) as E' by (apply mem_In, H; left; reflexivity).
        congruence.
Qed.




Lemma avg_metric_of_available (detailed_scores : dict (dict value)) (task : string) :
  In task (dict_keys detailed_scores) ->
  (produced detailed_scores task
   /\ avg_metric_of detailed_scores task = Ok (avg_metric_value detailed_scores task))
  \/ (~ produced detailed_scores task
      /\ avg_metric_of detailed_scores task = Raise TypeError).
Proof.
  intros Hin. unfold avg_metric_of, dict_item, score_item, avg_metric_value, produced.
  destruct (dict_get task detailed_scores) as [score|] eqn:E.
  - cbn [bind]. destruct (dict_get "avg_metric" score) as [[d|q]|] eqn:Em.
    + right. split; [|reflexivity]. intros (s & q & [= <-] & Hq). congruence.
    + left. split; [|reflexivity]. exists score, q. split; [reflexivity|exact Em].
    + right. split; [|reflexivity]. intros (s & q & [= <-] & Hq). congruence.
  - apply dict_get_None in E. contradiction.
Qed.

Lemma sum_avg_metric_TypeError (detailed_scores : dict (dict value)) (tasks : list string) :
  (forall task, In task tasks -> In task (dict_keys detailed_scores)) ->
  (exists task, In task tasks /\ ~ produced detailed_scores task) ->
  forall acc, sum_avg_metric detailed_scores tasks acc = Raise TypeError.
Proof.
  induction tasks as [|t rest IH]; intros Havail (bad & Hin & Hbad) acc.
  - contradiction.
  - cbn [sum_avg_metric].
    destruct (avg_metric_of_available detailed_scores t (Havail t (or_introl eq_refl)))
      as [[Hprod ->]|[_ ->]]; [|reflexivity].
    cbn [bind]. apply IH.
    + intros task H. apply Havail. right. exact H.
    + destruct Hin as [<-|Hin]; [contradiction|]. exists bad. split; assumption.
Qed.









(** The tasks of [detailed_scores] are registered ones: the loop over
    [TASK2LANGS] adds no other key. *)
Lemma evaluate_tasks_keys (tables : Tables) (fs : filesystem)
    (prediction_folder label_folder : string) (prediction_tasks label_tasks : list string)
    (items : dict (list string)) (registered : list string) :
  incl (dict_keys items) registered ->
  forall detailed_scores detailed_scores',
    incl (dict_keys detailed_scores) registered ->
    evaluate_tasks tables fs prediction_folder label_folder prediction_tasks label_tasks
                   items detailed_scores = Ok detailed_scores' ->
    incl (dict_keys detailed_scores') registered.
Proof.
  induction items as [|[task langs] rest IH]; intros Hitems d d' Hd Hrun; cbn in Hrun.
  - injection Hrun as <-. exact Hd.
  - assert (incl (dict_keys rest) registered) as Hrest
      by (intros x Hx; apply Hitems; right; exact Hx).
    destruct (mem task prediction_tasks && mem task label_tasks).
    + destruct (evaluate_task tables fs prediction_folder label_folder task langs)
        as [score|e]; cbn [bind] in Hrun; [|discriminate].
      apply (IH Hrest (dict_set task score d) d'); [|exact Hrun].
      intros x Hx. apply dict_keys_set in Hx. destruct Hx as [->|Hx].
      * apply Hitems. left. reflexivity.
      * apply Hd. exact Hx.
    + exact (IH Hrest d d' Hd Hrun).
Qed.


Lemma module_tables_well_formed (seqeval : Seqeval) : well_formed (module_tables seqeval).
Proof.
  split; [|split; [|split; [|split]]].
  - cbn. constructor; [intros []|constructor].
  - reflexivity.
  - intros group members [[= <- <-]|[]]. discriminate.
  - discriminate.
  - cbn. constructor; [intros []|constructor].
Qed.




(** ** Missing files *)

Lemma open_lines_missing (fs : filesystem) (file : string) :
  dict_get file (files fs) = None -> open_lines fs file = Raise (FileNotFoundError file).
Proof. intros H. unfold open_lines. rewrite H. reflexivity. Qed.

Lemma read_label_missing (fs : filesystem) (file : string) :
  dict_get file (files fs) = None -> read_label fs file = Raise (FileNotFoundError file).
Proof. intros H. unfold read_label. rewrite (open_lines_missing _ _ H). reflexivity. Qed.

Lemma read_label_present (fs : filesystem) (file : string) :
  dict_get file (files fs) <> None -> exists labels, read_label fs file = Ok labels.
Proof.
  intros H. unfold read_label, open_lines.
  destruct (dict_get file (files fs)) as [text|]; [|contradiction].
  eexists. reflexivity.
Qed.

(** C2, as the code has it: no test for the existence of a file precedes
    the readers.  For a task read with [read_label], [evaluate_one_task]
    raises [FileNotFoundError] for the prediction file when it is absent,
    and for the label file when only that one is absent; the loop over the
    languages then ends with an error as soon as one language of the list
    lacks a file, and returns no scores for the task. *)
Theorem missing_file_aborts_task (tables : Tables) (fs : filesystem)
    (prediction_folder label_folder task suffix : string) :
  dict_get task (READER_FUNCTION tables) = Some read_label ->
  (forall prediction_file label_file language,
      dict_get prediction_file (files fs) = None ->
      evaluate_one_task tables fs prediction_file label_file task language
      = Raise (FileNotFoundError prediction_file))
  /\ (forall prediction_file label_file language,
        dict_get prediction_file (files fs) <> None ->
        dict_get label_file (files fs) = None ->
        evaluate_one_task tables fs prediction_file label_file task language
        = Raise (FileNotFoundError label_file))
  /\ (forall langs score lg,
        In lg langs ->
        dict_get (path_join prediction_folder [task; test_file lg suffix]) (files fs) = None
        \/ dict_get (path_join label_folder [task; test_file lg suffix]) (files fs) = None ->
        raises (score_languages tables fs prediction_folder label_folder task suffix
                                langs score) = true).
Proof.
  intros Hreader.
  assert (forall prediction_file label_file language,
             dict_get prediction_file (files fs) = None ->
             evaluate_one_task tables fs prediction_file label_file task language
             = Raise (FileNotFoundError prediction_file)) as Hpred.
  { intros prediction_file label_file language H.
    unfold evaluate_one_task, dict_item. rewrite Hreader. cbn [bind].
    rewrite (read_label_missing _ _ H). reflexivity. }
  assert (forall prediction_file label_file language,
             dict_get prediction_file (files fs) <> None ->
             dict_get label_file (files fs) = None ->
             evaluate_one_task tables fs prediction_file label_file task language
             = Raise (FileNotFoundError label_file)) as Hlabel.
  { intros prediction_file label_file language Hp Hl.
    unfold evaluate_one_task, dict_item. rewrite Hreader. cbn [bind].
    destruct (read_label_present _ _ Hp) as [predictions ->]. cbn [bind].
    rewrite (read_label_missing _ _ Hl). reflexivity. }
  split; [exact Hpred|]. split; [exact Hlabel|].
  induction langs as [|lg0 rest IH]; intros score lg Hin Hmiss; [contradiction|].
  cbn [score_languages].
  destruct (evaluate_one_task tables fs
              (path_join prediction_folder [task; test_file lg0 suffix])
              (path_join label_folder [task; test_file lg0 suffix]) task (Some lg0))
    as [score_lg|e] eqn:E; [|reflexivity].
  cbn [bind]. destruct Hin as [->|Hin]; [|exact (IH _ lg Hin Hmiss)].
  exfalso. destruct Hmiss as [Hp|Hl].
  - rewrite (Hpred _ _ _ Hp) in E. discriminate.
  - destruct (dict_get (path_join prediction_folder [task; test_file lg suffix]) (files fs))
      eqn:Ep.
    + rewrite Hlabel in E; [discriminate| |exact Hl]. rewrite Ep. discriminate.
    + rewrite (Hpred _ _ _ Ep) in E. discriminate.
Qed.

Lemma missing_file_aborts_task_witness :
  raises (score_languages (module_tables (constant_seqeval 1)) run_without_de
            "predictions" "labels" "pawsx" "tsv" ["en"; "de"; "fr"] []) = true.
Proof.
  apply (proj2 (proj2 (missing_file_aborts_task (module_tables (constant_seqeval 1))
                         run_without_de "predictions" "labels" "pawsx" "tsv" eq_refl))
           ["en"; "de"; "fr"] [] "de").
  - right. left. reflexivity.
  - left. reflexivity.
Defined.

(** C2 does not hold as stated: with the files of [de] incomplete, the loop
    over [en], [de], [fr] does not skip [de]; it raises the reader's
    [FileNotFoundError] and the task gets no scores. *)
Lemma missing_language_is_not_skipped :
  score_languages (module_tables (constant_seqeval 1)) run_without_de
    "predictions" "labels" "pawsx" "tsv" ["en"; "de"; "fr"] []
  = Raise (FileNotFoundError "predictions/pawsx/test-de.tsv").
Proof. reflexivity. Qed.

(** ** Unequal example counts *)

Lemma evaluate_tasks_app (tables : Tables) (fs : filesystem)
    (prediction_folder label_folder : string) (prediction_tasks label_tasks : list string)
    (before after : dict (list string)) (detailed_scores : dict (dict value)) :
  evaluate_tasks tables fs prediction_folder label_folder prediction_tasks label_tasks
                 (before ++ after)%list detailed_scores
  = (d <- evaluate_tasks tables fs prediction_folder label_folder prediction_tasks
                         label_tasks before detailed_scores ;;
     evaluate_tasks tables fs prediction_folder label_folder prediction_tasks
                    label_tasks after d).
Proof.
  revert detailed_scores. induction before as [|[task langs] rest IH];
    intros d; cbn [app evaluate_tasks].
  - reflexivity.
  - destruct (mem task prediction_tasks && mem task label_tasks); [|apply IH].
    destruct (evaluate_task tables fs prediction_folder label_folder task langs);
      cbn [bind]; [apply IH|reflexivity].
Qed.

Lemma score_languages_app (tables : Tables) (fs : filesystem)
    (prediction_folder label_folder task suffix : string) (before after : list string) :
  forall score,
    score_languages tables fs prediction_folder label_folder task suffix
                    (before ++ after)%list score
    = (score' <- score_languages tables fs prediction_folder label_folder task suffix
                                 before score ;;
       score_languages tables fs prediction_folder label_folder task suffix after score').
Proof.
  induction before as [|lg rest IH]; intros score; cbn [app score_languages].
  - reflexivity.
  - destruct (evaluate_one_task tables fs
                (path_join prediction_folder [task; test_file lg suffix])
                (path_join label_folder [task; test_file lg suffix]) task (Some lg));
      cbn [bind]; [apply IH|reflexivity].
Qed.

(** C3, as the code has it.  For a task outside the four names of line 90
    whose two files are read to lists of unequal lengths,
    [evaluate_one_task] raises an [AssertionError] whose message names the
    two files and the task.  Nothing catches it: the loop over the
    languages ends with the error raised at a language, whichever
    languages were scored before it; the body of the loop over the tasks
    ends with the error of the languages; [evaluate] ends with the error of
    a task, whichever tasks were evaluated before it.  So [evaluate]
    itself raises the [AssertionError] of the first mismatch, at any
    language of any task, and no scores are returned, for that task or for
    any other. *)
Theorem count_mismatch_aborts_evaluation (tables : Tables) (fs : filesystem)
    (prediction_folder label_folder : string) :
  (forall prediction_file label_file task language read predictions labels,
      dict_get task (READER_FUNCTION tables) = Some read ->
      read fs prediction_file = Ok predictions ->
      read fs label_file = Ok labels ->
      mem task unchecked_tasks = false ->
      length predictions <> length labels ->
      evaluate_one_task tables fs prediction_file label_file task language
      = Raise (AssertionError
                 ("Number of examples in " ++ prediction_file ++ " and " ++ label_file
                  ++ " not matched in " ++ task ++ " task")))
  /\ (forall task suffix before lg after score score' e,
        score_languages tables fs prediction_folder label_folder task suffix
                        before score = Ok score' ->
        evaluate_one_task tables fs
          (path_join prediction_folder [task; test_file lg suffix])
          (path_join label_folder [task; test_file lg suffix]) task (Some lg) = Raise e ->
        score_languages tables fs prediction_folder label_folder task suffix
                        (before ++ lg :: after)%list score = Raise e)
  /\ (forall task langs qa e,
        dict_get "qa" (GROUP2TASK tables) = Some qa ->
        score_languages tables fs prediction_folder label_folder task
                        (if mem task qa then "json" else "tsv") langs [] = Raise e ->
        evaluate_task tables fs prediction_folder label_folder task langs = Raise e)
  /\ (forall prediction_tasks label_tasks before task langs after detailed_scores e,
        TASK2LANGS tables = (before ++ (task, langs) :: after)%list ->
        walk_dirs fs prediction_folder = Ok prediction_tasks ->
        walk_dirs fs label_folder = Ok label_tasks ->
        evaluate_tasks tables fs prediction_folder label_folder prediction_tasks
                       label_tasks before [] = Ok detailed_scores ->
        mem task prediction_tasks && mem task label_tasks = true ->
        evaluate_task tables fs prediction_folder label_folder task langs = Raise e ->
        evaluate tables fs prediction_folder label_folder = Raise e)
  /\ (forall prediction_tasks label_tasks tasks_before task langs_before lg langs_after
             tasks_after detailed_scores qa score read predictions labels,
        TASK2LANGS tables
        = (tasks_before ++ (task, langs_before ++ lg :: langs_after) :: tasks_after)%list ->
        walk_dirs fs prediction_folder = Ok prediction_tasks ->
        walk_dirs fs label_folder = Ok label_tasks ->
        evaluate_tasks tables fs prediction_folder label_folder prediction_tasks
                       label_tasks tasks_before [] = Ok detailed_scores ->
        mem task prediction_tasks && mem task label_tasks = true ->
        dict_get "qa" (GROUP2TASK tables) = Some qa ->
        score_languages tables fs prediction_folder label_folder task
                        (if mem task qa then "json" else "tsv") langs_before []
        = Ok score ->
        dict_get task (READER_FUNCTION tables) = Some read ->
        read fs (path_join prediction_folder
                   [task; test_file lg (if mem task qa then "json" else "tsv")])
        = Ok predictions ->
        read fs (path_join label_folder
                   [task; test_file lg (if mem task qa then "json" else "tsv")])
        = Ok labels ->
        mem task unchecked_tasks = false ->
        length predictions <> length labels ->
        evaluate tables fs prediction_folder label_folder
        = Raise (AssertionError
                   ("Number of examples in "
                    ++ path_join prediction_folder
                         [task; test_file lg (if mem task qa then "json" else "tsv")]
                    ++ " and "
                    ++ path_join label_folder
                         [task; test_file lg (if mem task qa then "json" else "tsv")]
                    ++ " not matched in " ++ task ++ " task"))).
Proof.
  assert (forall prediction_file label_file task language read predictions labels,
             dict_get task (READER_FUNCTION tables) = Some read ->
             read fs prediction_file = Ok predictions ->
             read fs label_file = Ok labels ->
             mem task unchecked_tasks = false ->
             length predictions <> length labels ->
             evaluate_one_task tables fs prediction_file label_file task language
             = Raise (AssertionError
                        ("Number of examples in " ++ prediction_file ++ " and "
                         ++ label_file ++ " not matched in " ++ task ++ " task")))
    as Hone.
  { intros prediction_file label_file task language read predictions labels
      Hreader Hp Hl Hchecked Hlen.
    unfold evaluate_one_task, dict_item. rewrite Hreader. cbn [bind].
    rewrite Hp. cbn [bind]. rewrite Hl. cbn [bind]. rewrite Hchecked. cbn [negb].
    destruct (len predictions =? len labels)%Z eqn:E; [|reflexivity].
    apply Z.eqb_eq in E. unfold len in E. lia. }
  assert (forall task suffix before lg after score score' e,
             score_languages tables fs prediction_folder label_folder task suffix
                             before score = Ok score' ->
             evaluate_one_task tables fs
               (path_join prediction_folder [task; test_file lg suffix])
               (path_join label_folder [task; test_file lg suffix]) task (Some lg)
             = Raise e ->
             score_languages tables fs prediction_folder label_folder task suffix
                             (before ++ lg :: after)%list score = Raise e) as Hlangs.
  { intros task suffix before lg after score score' e Hbefore H.
    rewrite score_languages_app, Hbefore. cbn [bind score_languages].
    rewrite H. reflexivity. }
  assert (forall task langs qa e,
             dict_get "qa" (GROUP2TASK tables) = Some qa ->
             score_languages tables fs prediction_folder label_folder task
                             (if mem task qa then "json" else "tsv") langs [] = Raise e ->
             evaluate_task tables fs prediction_folder label_folder task langs = Raise e)
    as Htask.
  { intros task langs qa e Hqa H. unfold evaluate_task, dict_item.
    rewrite Hqa. cbn [bind]. rewrite H. reflexivity. }
  assert (forall prediction_tasks label_tasks before task langs after detailed_scores e,
             TASK2LANGS tables = (before ++ (task, langs) :: after)%list ->
             walk_dirs fs prediction_folder = Ok prediction_tasks ->
             walk_dirs fs label_folder = Ok label_tasks ->
             evaluate_tasks tables fs prediction_folder label_folder prediction_tasks
                            label_tasks before [] = Ok detailed_scores ->
             mem task prediction_tasks && mem task label_tasks = true ->
             evaluate_task tables fs prediction_folder label_folder task langs = Raise e ->
             evaluate tables fs prediction_folder label_folder = Raise e) as Hall.
  { intros prediction_tasks label_tasks before task langs after detailed_scores e
      Htable Hp Hl Hbefore Heligible Hbody.
    unfold evaluate. rewrite Hp, Hl. cbn [bind].
    rewrite Htable, evaluate_tasks_app, Hbefore. cbn [bind evaluate_tasks].
    rewrite Heligible, Hbody. reflexivity. }
  split; [exact Hone|]. split; [exact Hlangs|]. split; [exact Htask|].
  split; [exact Hall|].
  intros prediction_tasks label_tasks tasks_before task langs_before lg langs_after
    tasks_after detailed_scores qa score read predictions labels
    Htable Hp Hl Hbefore Heligible Hqa Hscore Hreader Hpred Hlab Hchecked Hlen.
  apply (Hall prediction_tasks label_tasks tasks_before task
              (langs_before ++ lg :: langs_after)%list tasks_after detailed_scores _
              Htable Hp Hl Hbefore Heligible).
  apply (Htask task _ qa _ Hqa).
  apply (Hlangs task _ langs_before lg langs_after [] score _ Hscore).
  exact (Hone _ _ task (Some lg) read predictions labels Hreader Hpred Hlab Hchecked Hlen).
Qed.

Lemma count_mismatch_aborts_evaluation_witness :
  evaluate (tables_with_xnli (constant_seqeval 1)) last_mismatch_run "predictions" "labels"
  = Raise (AssertionError
             "Number of examples in predictions/xnli/test-de.tsv and labels/xnli/test-de.tsv not matched in xnli task")
  /\ score_languages (module_tables (constant_seqeval 1)) late_mismatch_run
       "predictions" "labels" "pawsx" "tsv" pawsx_langs []
     = Raise (AssertionError
                "Number of examples in predictions/pawsx/test-es.tsv and labels/pawsx/test-es.tsv not matched in pawsx task").
Proof.
  split.
  - pose proof (count_mismatch_aborts_evaluation (tables_with_xnli (constant_seqeval 1))
                  last_mismatch_run "predictions" "labels") as (_ & _ & _ & _ & Hall).
    eapply (Hall ["pawsx"; "xnli"] ["udpos"; "xnli"; "pawsx"] [("pawsx", pawsx_langs)]
                 "xnli" ["en"] "de" [] [] _ ["xquad"; "mlqa"; "tydiqa"] _ read_label
                 (repeat "neutral" 3) (repeat "neutral" 4)).
    + reflexivity.
    + reflexivity.
    + reflexivity.
    + reflexivity.
    + reflexivity.
    + reflexivity.
    + reflexivity.
    + reflexivity.
    + reflexivity.
    + reflexivity.
    + reflexivity.
    + cbn. lia.
  - pose proof (count_mismatch_aborts_evaluation (module_tables (constant_seqeval 1))
                  late_mismatch_run "predictions" "labels") as (Hone & Hlangs & _).
    eapply (Hlangs "pawsx" "tsv" ["de"; "en"] "es" ["fr"; "ja"; "ko"; "zh"] [] _).
    + reflexivity.
    + apply (Hone "predictions/pawsx/test-es.tsv" "labels/pawsx/test-es.tsv" "pawsx"
               (Some "es") read_label (repeat "1" 2) (repeat "1" 11)).
      * reflexivity.
      * reflexivity.
      * reflexivity.
      * reflexivity.
      * cbn. lia.
Defined.

(** C3 does not hold as stated.  On the module's tables the run with ten
    predictions against eleven labels ends in the [KeyError] of the
    suffix lookup, not in an error that names the files.  On tables where
    that lookup succeeds and [xnli] is registered next to [pawsx], a
    mismatch in the third language of [pawsx] ends the whole call with the
    [AssertionError]: [xnli], whose files match, is not evaluated and no
    report is returned. *)
Lemma count_mismatch_is_not_scoped_to_the_task :
  evaluate (module_tables (constant_seqeval 1)) run_with_mismatch "predictions" "labels"
  = Raise (KeyError "qa")
  /\ evaluate (tables_with_xnli (constant_seqeval 1)) late_mismatch_run
       "predictions" "labels"
     = Raise (AssertionError
                "Number of examples in predictions/pawsx/test-es.tsv and labels/pawsx/test-es.tsv not matched in pawsx task")
  /\ evaluate_task (tables_with_xnli (constant_seqeval 1)) late_mismatch_run
       "predictions" "labels" "xnli" ["en"; "de"]
     = Ok [("accuracy", Langs [("en", 3 / 3 * 100); ("de", 3 / 3 * 100)]%Q);
           ("avg_accuracy", Num (mean [3 / 3 * 100; 3 / 3 * 100]%Q));
           ("avg_metric", Num (mean [3 / 3 * 100; 3 / 3 * 100]%Q))].
Proof.
  split; [reflexivity|]. split; reflexivity.
Qed.

(** * Further properties of the code *)

(** ** The readers *)

Lemma read_tag_loop_length (lines : list string) :
  forall labels example,
    length (read_tag_loop lines labels example)
    = (length labels + length (filter blank lines))%nat.
Proof.
  induction lines as [|l lines IH]; intros labels example; cbn [read_tag_loop filter].
  - cbn. lia.
  - change (String.eqb (strip l) "") with (blank l).
    destruct (blank l); cbn [negb length].
    + rewrite IH, length_app. cbn. lia.
    + rewrite IH. reflexivity.
Qed.

Lemma read_tag_loop_tags (lines : list string) :
  forall labels example,
    (existsb blank lines = true ->
     (concat (read_tag_loop lines labels example) ++ unterminated lines
      = concat labels ++ example ++ tags lines)%list)
    /\ (existsb blank lines = false ->
        read_tag_loop lines labels example = labels
        /\ unterminated lines = tags lines).
Proof.
  unfold tags.
  induction lines as [|l lines IH]; intros labels example.
  - split; [discriminate|]. intros _. split; reflexivity.
  - cbn [read_tag_loop existsb unterminated filter].
    change (String.eqb (strip l) "") with (blank l).
    destruct (blank l) eqn:Hb; cbn [negb orb map].
    + split; [|discriminate]. intros _.
      destruct (IH (labels ++ [example])%list []) as [Hsome Hnone].
      destruct (existsb blank lines) eqn:E.
      * rewrite (Hsome eq_refl), concat_app. cbn. rewrite app_nil_r, <- app_assoc.
        reflexivity.
      * destruct (Hnone eq_refl) as [-> ->]. rewrite concat_app. cbn.
        rewrite app_nil_r, <- app_assoc. reflexivity.
    + destruct (IH labels (example ++ [strip l])%list) as [Hsome Hnone].
      split.
      * intros E. rewrite E. rewrite (Hsome E), <- app_assoc. reflexivity.
      * intros E. rewrite E. destruct (Hnone E) as [-> ->]. split; reflexivity.
Qed.

Lemma unterminated_last_blank (lines : list string) (last : string) :
  blank last = true -> unterminated (lines ++ [last]) = [].
Proof.
  intros Hb. induction lines as [|l lines IH]; cbn [app unterminated].
  - rewrite Hb. reflexivity.
  - assert (existsb blank (lines ++ [last]) = true) as ->.
    { rewrite existsb_app. cbn. rewrite Hb. apply orb_true_iff. right. reflexivity. }
    rewrite orb_true_r. exact IH.
Qed.

Lemma read_tag_loop_examples (lines : list string) :
  forall labels example,
    read_tag_loop lines labels example
    = (labels ++ match examples_of lines with
                 | [] => []
                 | first :: examples => (example ++ first) :: examples
                 end)%list.
Proof.
  induction lines as [|l lines IH]; intros labels example;
    cbn [read_tag_loop examples_of].
  - rewrite app_nil_r. reflexivity.
  - change (String.eqb (strip l) "") with (blank l).
    destruct (blank l); cbn [negb].
    + rewrite IH, <- app_assoc, app_nil_r. cbn [app].
      destruct (examples_of lines); reflexivity.
    + rewrite IH. destruct (examples_of lines) as [|first examples]; [reflexivity|].
      rewrite <- app_assoc. reflexivity.
Qed.

Lemma examples_of_length (lines : list string) :
  length (examples_of lines) = length (filter blank lines).
Proof.
  induction lines as [|l lines IH]; cbn [examples_of filter]; [reflexivity|].
  destruct (blank l); cbn [length].
  - rewrite IH. reflexivity.
  - rewrite <- IH. destruct (examples_of lines); reflexivity.
Qed.

Lemma examples_of_closed (before : list string) (closing : string) (rest : list string) :
  blank closing = true ->
  examples_of (before ++ closing :: rest)
  = (examples_of (before ++ [closing]) ++ examples_of rest)%list.
Proof.
  intros Hb. induction before as [|l before IH]; cbn [app examples_of].
  - rewrite Hb. reflexivity.
  - rewrite IH. destruct (blank l); [reflexivity|].
    destruct (examples_of (before ++ [closing])) as [|first examples] eqn:E;
      [|reflexivity].
    exfalso. apply (f_equal (@length _)) in E.
    rewrite examples_of_length, filter_app, length_app in E. cbn in E.
    rewrite Hb in E. cbn in E. lia.
Qed.

(** X1: [read_tag] cuts the file at its blank lines.  Each blank line
    closes one example, made of the stripped lines since the blank line
    before it (or since the start); so there are as many examples as blank
    lines, and of two blank lines in a row the second closes an empty
    example.  The lines after the last blank line are in no example. *)
Theorem read_tag_one_example_per_blank_line (fs : filesystem) (file text : string) :
  dict_get file (files fs) = Some text ->
  exists examples,
    read_tag fs file = Ok examples
    /\ examples = examples_of (readlines (universal_newlines text))
    /\ length examples
       = length (filter blank (readlines (universal_newlines text)))
    /\ (forall before first second after,
          readlines (universal_newlines text)
          = (before ++ first :: second :: after)%list ->
          blank first = true ->
          blank second = true ->
          examples
          = (examples_of (before ++ [first]) ++ [] :: examples_of after)%list).
Proof.
  intros Hfile. unfold read_tag, open_lines. rewrite Hfile. cbn [bind].
  eexists. split; [reflexivity|].
  assert (read_tag_loop (readlines (universal_newlines text)) [] []
          = examples_of (readlines (universal_newlines text))) as Hex.
  { rewrite read_tag_loop_examples. cbn [app].
    destruct (examples_of (readlines (universal_newlines text))); reflexivity. }
  split; [exact Hex|]. split.
  - rewrite Hex. apply examples_of_length.
  - intros before first second after Hlines Hfirst Hsecond.
    rewrite Hex, Hlines, (examples_of_closed before first _ Hfirst).
    cbn [examples_of]. rewrite Hsecond. reflexivity.
Qed.

Lemma read_tag_one_example_per_blank_line_witness :
  exists examples,
    read_tag {| dirs := []; files := [("test-en.tsv", "B-PER" ++ NL ++ NL ++ NL ++ "O")] |}
             "test-en.tsv" = Ok examples
    /\ examples = [["B-PER"]; []]
    /\ length examples = 2%nat.
Proof.
  destruct (read_tag_one_example_per_blank_line
              {| dirs := []; files := [("test-en.tsv", "B-PER" ++ NL ++ NL ++ NL ++ "O")] |}
              "test-en.tsv" ("B-PER" ++ NL ++ NL ++ NL ++ "O") eq_refl)
    as (examples & Hrun & Hex & Hlen & _).
  exists examples. split; [exact Hrun|]. split; [exact Hex|exact Hlen].
Defined.

(** X2: the tags [read_tag] returns, example after example, followed by the
    tags after the last blank line, are the tags of the file in order:
    every tag before the last blank line is returned once, and exactly the
    later ones are lost.  When the last line is blank nothing is lost. *)
Theorem read_tag_returns_tags_before_last_blank (fs : filesystem) (file text : string) :
  dict_get file (files fs) = Some text ->
  exists examples,
    read_tag fs file = Ok examples
    /\ (concat examples ++ unterminated (readlines (universal_newlines text))
        = tags (readlines (universal_newlines text)))%list
    /\ (forall init last,
          readlines (universal_newlines text) = (init ++ [last])%list ->
          blank last = true ->
          concat examples = tags (readlines (universal_newlines text))).
Proof.
  intros Hfile. unfold read_tag, open_lines. rewrite Hfile. cbn [bind].
  eexists. split; [reflexivity|].
  assert ((concat (read_tag_loop (readlines (universal_newlines text)) [] [])
           ++ unterminated (readlines (universal_newlines text))
           = tags (readlines (universal_newlines text)))%list) as Hall.
  { destruct (read_tag_loop_tags (readlines (universal_newlines text)) [] [])
      as [Hsome Hnone].
    destruct (existsb blank (readlines (universal_newlines text))) eqn:E.
    - exact (Hsome eq_refl).
    - destruct (Hnone eq_refl) as [-> ->]. reflexivity. }
  split; [exact Hall|].
  intros init last Hlines Hb. rewrite Hlines in Hall |- *.
  rewrite (unterminated_last_blank init last Hb), app_nil_r in Hall. exact Hall.
Qed.

Lemma read_tag_returns_tags_before_last_blank_witness :
  exists examples,
    read_tag tagged_run "test-en.tsv" = Ok examples
    /\ (concat examples ++ ["B-LOC"; "O"] = ["B-PER"; "O"; "B-LOC"; "O"])%list.
Proof.
  destruct (read_tag_returns_tags_before_last_blank tagged_run "test-en.tsv" tagged_text
              eq_refl) as (examples & Hrun & Hall & _).
  exists examples. split; [exact Hrun|exact Hall].
Defined.

Lemma rstrip_nonspace (c : ascii) (r : string) :
  isspace c = false -> rstrip (String c r) = String c (rstrip r).
Proof.
  intros Hc. cbn [rstrip]. destruct (rstrip r); [rewrite Hc|]; reflexivity.
Qed.

Lemma rstrip_cons (c : ascii) (r : string) :
  rstrip (String c r)
  = match rstrip r with
    | EmptyString => if isspace c then EmptyString else String c EmptyString
    | String a b => String c (String a b)
    end.
Proof. cbn [rstrip]. destruct (rstrip r); reflexivity. Qed.

Lemma rstrip_idempotent (s : string) : rstrip (rstrip s) = rstrip s.
Proof.
  induction s as [|c r IH]; [reflexivity|].
  rewrite (rstrip_cons c r). destruct (rstrip r) as [|a b] eqn:E.
  - destruct (isspace c) eqn:Hc; [reflexivity|].
    rewrite rstrip_cons. cbn [rstrip]. rewrite Hc. reflexivity.
  - rewrite rstrip_cons, IH. reflexivity.
Qed.

Lemma lstrip_head (s : string) :
  lstrip s = EmptyString \/ exists c r, lstrip s = String c r /\ isspace c = false.
Proof.
  induction s as [|c r IH]; [left; reflexivity|].
  cbn [lstrip]. destruct (isspace c) eqn:Hc; [exact IH|].
  right. exists c, r. split; [reflexivity|exact Hc].
Qed.

Lemma strip_idempotent (s : string) : strip (strip s) = strip s.
Proof.
  unfold strip. destruct (lstrip_head s) as [->|(c & r & -> & Hc)]; [reflexivity|].
  rewrite (rstrip_nonspace c r Hc). cbn [lstrip]. rewrite Hc.
  rewrite <- (rstrip_nonspace c r Hc). apply rstrip_idempotent.
Qed.

(** X3: [read_label] raises [FileNotFoundError] for a file that is not
    there; otherwise it returns one label for each line of the file, blank
    lines included, and no label begins or ends with white space. *)
Theorem read_label_one_stripped_label_per_line (fs : filesystem) (file : string) :
  (dict_get file (files fs) = None ->
   read_label fs file = Raise (FileNotFoundError file))
  /\ (forall text,
        dict_get file (files fs) = Some text ->
        exists labels,
          read_label fs file = Ok labels
          /\ length labels = length (readlines (universal_newlines text))
          /\ Forall (fun label => strip label = label) labels).
Proof.
  split.
  - apply read_label_missing.
  - intros text Hfile. unfold read_label, open_lines. rewrite Hfile. cbn [bind].
    eexists. split; [reflexivity|]. split; [apply length_map|].
    apply Forall_forall. intros label Hin. apply in_map_iff in Hin.
    destruct Hin as (line & <- & _). apply strip_idempotent.
Qed.

Lemma read_label_one_stripped_label_per_line_witness :
  read_label run_without_de "predictions/pawsx/test-de.tsv"
  = Raise (FileNotFoundError "predictions/pawsx/test-de.tsv")
  /\ exists labels,
       read_label run_without_de "labels/pawsx/test-de.tsv" = Ok labels
       /\ length labels = 2%nat
       /\ Forall (fun label => strip label = label) labels.
Proof.
  pose proof (read_label_one_stripped_label_per_line run_without_de) as H.
  split.
  - apply (proj1 (H "predictions/pawsx/test-de.tsv")). reflexivity.
  - apply (proj2 (H "labels/pawsx/test-de.tsv") (label_lines "1" 2)). reflexivity.
Defined.

(** ** The accuracy metric, further *)

Lemma count_correct_nil_r (predictions : list string) : count_correct predictions [] = 0%Z.
Proof. destruct predictions; reflexivity. Qed.

Lemma count_correct_bounds (predictions labels : list string) :
  (0 <= count_correct predictions labels <= len predictions)%Z.
Proof.
  unfold len. revert labels. induction predictions as [|p ps IH]; intros labels.
  - cbn. lia.
  - destruct labels as [|l ls].
    + rewrite count_correct_nil_r. cbn [length]. lia.
    + rewrite count_correct_cons. specialize (IH ls). unfold int_eq.
      cbn [length]. destruct (String.eqb p l); lia.
Qed.

Lemma percentage_bounds (correct n : Z) :
  (0 <= correct <= n)%Z -> (0 < n)%Z ->
  (0 <= inject_Z correct / inject_Z n * 100 <= 100)%Q.
Proof.
  intros [H0 Hn] Hpos.
  assert (0 < inject_Z n)%Q as Hq by (unfold Qlt; cbn; lia).
  split.
  - apply Qmult_le_0_compat; [|discriminate].
    apply Qle_shift_div_l; [exact Hq|]. rewrite Qmult_0_l.
    unfold Qle. cbn. lia.
  - apply (Qle_trans _ (1 * 100)%Q); [|discriminate].
    apply Qmult_le_compat_r; [|discriminate].
    apply Qle_shift_div_r; [exact Hq|]. rewrite Qmult_1_l.
    unfold Qle. cbn. lia.
Qed.

(** X4: [accuracy] raises [ZeroDivisionError] exactly when there is no
    prediction, whatever the labels; for at least one prediction it
    returns the single entry [accuracy], a score between 0 and 100, also
    when the two lists differ in length. *)
Theorem accuracy_is_within_bounds (labels predictions : list string)
    (language : option string) :
  (predictions = [] -> accuracy labels predictions language = Raise ZeroDivisionError)
  /\ (predictions <> [] ->
      exists pct : Q,
        accuracy labels predictions language = Ok [("accuracy", pct)]
        /\ (0 <= pct <= 100)%Q).
Proof.
  split.
  - intros ->. reflexivity.
  - intros Hne. unfold accuracy, divide.
    assert (0 < len predictions)%Z as Hpos
      by (unfold len; destruct predictions; [contradiction|cbn; lia]).
    destruct (len predictions =? 0)%Z eqn:E; [apply Z.eqb_eq in E; lia|].
    cbn [bind]. eexists. split; [reflexivity|].
    apply percentage_bounds; [apply count_correct_bounds|exact Hpos].
Qed.

Lemma accuracy_is_within_bounds_witness :
  accuracy ["1"] [] (Some "en") = Raise ZeroDivisionError
  /\ exists pct : Q,
       accuracy ["1"] ["1"; "0"; "0"] (Some "en") = Ok [("accuracy", pct)]
       /\ (0 <= pct <= 100)%Q.
Proof.
  split.
  - apply (proj1 (accuracy_is_within_bounds ["1"] [] (Some "en"))). reflexivity.
  - apply (proj2 (accuracy_is_within_bounds ["1"] ["1"; "0"; "0"] (Some "en"))).
    discriminate.
Defined.

Lemma combine_app_l (predictions extra labels : list string) :
  length predictions = length labels ->
  combine (predictions ++ extra) labels = combine predictions labels.
Proof.
  revert labels. induction predictions as [|p ps IH]; intros [|l ls] Hlen;
    try discriminate.
  - destruct extra; reflexivity.
  - cbn. rewrite IH by (cbn in Hlen; lia). reflexivity.
Qed.

(** X5: the two lists are paired position by position and the pairing
    stops with the shorter one.  Labels beyond the number of predictions
    are never read; predictions beyond the number of labels cannot be
    correct, so they count in the denominator only. *)
Theorem accuracy_pairs_up_to_the_shorter_list :
  (forall (labels predictions : list string) (language : option string),
      accuracy labels predictions language
      = accuracy (firstn (length predictions) labels) predictions language)
  /\ (forall (labels predictions extra : list string) (language : option string),
        length predictions = length labels ->
        predictions <> [] ->
        accuracy labels (predictions ++ extra)%list language
        = Ok [("accuracy",
               inject_Z (Z.of_nat (matching_positions predictions labels))
               / inject_Z (len (predictions ++ extra)%list) * 100)%Q]).
Proof.
  split.
  - intros labels predictions language. unfold accuracy, count_correct.
    rewrite (combine_firstn_l predictions labels) at 1. reflexivity.
  - intros labels predictions extra language Hlen Hne.
    unfold accuracy, divide.
    destruct (len (predictions ++ extra)%list =? 0)%Z eqn:E.
    + apply Z.eqb_eq in E. unfold len in E. rewrite length_app in E.
      destruct predictions; [contradiction|cbn in E; lia].
    + cbn [bind]. unfold count_correct at 1. rewrite (combine_app_l _ _ _ Hlen).
      fold (count_correct predictions labels).
      rewrite (count_correct_matching _ _ Hlen). reflexivity.
Qed.

Lemma accuracy_pairs_up_to_the_shorter_list_witness :
  accuracy ["1"; "0"] ["1"; "0"; "1"; "1"] None
  = Ok [("accuracy", inject_Z 2 / inject_Z 4 * 100)%Q].
Proof.
  apply (proj2 accuracy_pairs_up_to_the_shorter_list ["1"; "0"] ["1"; "0"] ["1"; "1"] None).
  - reflexivity.
  - discriminate.
Defined.

Lemma count_correct_all (predictions labels : list string) :
  length predictions = length labels ->
  count_correct predictions labels = len predictions <-> predictions = labels.
Proof.
  unfold len. revert labels. induction predictions as [|p ps IH]; intros [|l ls] Hlen;
    try discriminate.
  - split; reflexivity.
  - cbn in Hlen. assert (length ps = length ls) as Hlen' by lia.
    rewrite count_correct_cons. pose proof (count_correct_bounds ps ls) as Hb.
    unfold len in Hb. unfold int_eq. cbn [length].
    destruct (String.eqb p l) eqn:E.
    + apply String.eqb_eq in E. subst l. split.
      * intros H. f_equal. apply (IH ls Hlen'). lia.
      * intros [= ->]. assert (count_correct ls ls = Z.of_nat (length ls)) as ->
          by (apply (IH ls Hlen'); reflexivity). lia.
    + apply String.eqb_neq in E. split; [lia|]. intros [= -> _]. contradiction.
Qed.

Lemma percentage_full (correct n : Z) :
  (0 < n)%Z -> (inject_Z correct / inject_Z n * 100 == 100)%Q <-> correct = n.
Proof.
  intros Hpos. destruct n as [|p|p]; try lia.
  unfold Qeq, Qdiv, Qmult, Qinv, inject_Z. cbn.
  rewrite Pos.mul_1_r. lia.
Qed.

(** X6: for predictions and labels of one length, [accuracy] is 100 exactly
    when the predictions are the labels: one differing position is enough
    to lose the full score. *)
Theorem accuracy_is_full_only_on_equal_lists (labels predictions : list string)
    (language : option string) (pct : Q) :
  length predictions = length labels ->
  accuracy labels predictions language = Ok [("accuracy", pct)] ->
  (pct == 100)%Q <-> predictions = labels.
Proof.
  intros Hlen Hrun. unfold accuracy, divide in Hrun.
  destruct (len predictions =? 0)%Z eqn:E; [discriminate|].
  cbn [bind] in Hrun. injection Hrun as <-.
  apply Z.eqb_neq in E.
  assert (0 < len predictions)%Z as Hpos by (unfold len in *; lia).
  rewrite (percentage_full _ _ Hpos). apply count_correct_all. exact Hlen.
Qed.

Lemma accuracy_is_full_only_on_equal_lists_witness :
  ((inject_Z 2 / inject_Z 2 * 100 == 100)%Q <-> ["1"; "0"] = ["1"; "0"])
  /\ ((inject_Z 1 / inject_Z 2 * 100 == 100)%Q <-> ["1"; "1"] = ["1"; "0"]).
Proof.
  split.
  - apply (accuracy_is_full_only_on_equal_lists ["1"; "0"] ["1"; "0"] None);
      reflexivity.
  - apply (accuracy_is_full_only_on_equal_lists ["1"; "0"] ["1"; "1"] None);
      reflexivity.
Defined.

(** ** One task and one language *)

Lemma evaluate_one_task_inversion (tables : Tables)
    (fs : filesystem) (prediction_file label_file task : string)
    (language : option string) (result : dict Q) :
  evaluate_one_task tables fs prediction_file label_file task language = Ok result ->
  exists read score predictions labels,
    dict_get task (READER_FUNCTION tables) = Some read
    /\ read fs prediction_file = Ok predictions
    /\ read fs label_file = Ok labels
    /\ (mem task unchecked_tasks = true \/ length predictions = length labels)
    /\ dict_get task (METRIC_FUNCTION tables) = Some score
    /\ score labels predictions language = Ok result.
Proof.
  unfold evaluate_one_task, dict_item. intros Hrun.
  destruct (dict_get task (READER_FUNCTION tables)) as [read|]; [|discriminate].
  cbn [bind] in Hrun.
  destruct (read fs prediction_file) as [predictions|] eqn:Hp; [|discriminate].
  cbn [bind] in Hrun.
  destruct (read fs label_file) as [labels|] eqn:Hl; [|discriminate].
  cbn [bind] in Hrun.
  assert (mem task unchecked_tasks = true \/ length predictions = length labels) as Hcount.
  { destruct (mem task unchecked_tasks); [left; reflexivity|right].
    cbn [negb] in Hrun.
    destruct (len predictions =? len labels)%Z eqn:E; [|discriminate].
    apply Z.eqb_eq in E. unfold len in E. lia. }
  destruct (if negb (mem task unchecked_tasks)
            then if (len predictions =? len labels)%Z then Ok tt
                 else Raise (AssertionError
                               (mismatch_message prediction_file label_file task))
            else Ok tt) as [[]|]; [|discriminate].
  cbn [bind] in Hrun.
  destruct (dict_get task (METRIC_FUNCTION tables)) as [score|]; [|discriminate].
  cbn [bind] in Hrun.
  exists read, score, predictions, labels. repeat split; try assumption; reflexivity.
Qed.

(** ** The whole call *)

(** X9: on the module's tables [evaluate] never returns a score.  It raises
    [StopIteration] when one of the two roots is not a directory, raises
    [KeyError] for ["qa"] when both roots hold a [pawsx] folder, and
    returns two empty mappings in every other case, whatever the files
    hold and whatever the scorers compute. *)
Theorem evaluate_returns_no_score (seqeval : Seqeval) (fs : filesystem)
    (prediction_folder label_folder : string) :
  evaluate (module_tables seqeval) fs prediction_folder label_folder
  = match walk_dirs fs prediction_folder, walk_dirs fs label_folder with
    | Ok prediction_tasks, Ok label_tasks =>
        if mem "pawsx" prediction_tasks && mem "pawsx" label_tasks
        then Raise (KeyError "qa")
        else Ok ([], [])
    | _, _ => Raise StopIteration
    end.
Proof.
  unfold evaluate, walk_dirs.
  destruct (dict_get prediction_folder (dirs fs)) as [prediction_tasks|];
    [|reflexivity].
  destruct (dict_get label_folder (dirs fs)) as [label_tasks|]; [|reflexivity].
  cbn [bind].
  change (TASK2LANGS (module_tables seqeval)) with [("pawsx", pawsx_langs)].
  cbn [evaluate_tasks].
  destruct (mem "pawsx" prediction_tasks && mem "pawsx" label_tasks); reflexivity.
Qed.

(** ** The scores of one task *)

Lemma dict_set_fresh {V : Type} (k : string) (v : V) (d : dict V) :
  ~ In k (dict_keys d) -> dict_set k v d = (d ++ [(k, v)])%list.
Proof.
  induction d as [|[k' v'] d IH]; cbn; intros Hfresh; [reflexivity|].
  destruct (String.eqb k k') eqn:E.
  - apply String.eqb_eq in E. subst. exfalso. apply Hfresh. left. reflexivity.
  - rewrite IH; [reflexivity|]. intros H. apply Hfresh. right. exact H.
Qed.

Lemma per_language_keys (fs : filesystem) (prediction_folder label_folder suffix : string)
    (scorer : list string -> list string -> Q) (langs : list string) :
  dict_keys (per_language fs prediction_folder label_folder suffix scorer langs) = langs.
Proof.
  unfold per_language, dict_keys. rewrite map_map. cbn. apply map_id.
Qed.

Lemma per_language_snoc (fs : filesystem) (prediction_folder label_folder suffix : string)
    (scorer : list string -> list string -> Q) (langs : list string) (lg : string) :
  ~ In lg langs ->
  dict_set lg
    (scorer (labels_at fs (path_join label_folder ["pawsx"; test_file lg suffix]))
            (labels_at fs (path_join prediction_folder ["pawsx"; test_file lg suffix]))
     * 100)%Q
    (per_language fs prediction_folder label_folder suffix scorer langs)
  = per_language fs prediction_folder label_folder suffix scorer (langs ++ [lg])%list.
Proof.
  intros Hfresh. rewrite dict_set_fresh by (rewrite per_language_keys; exact Hfresh).
  unfold per_language. rewrite map_app. reflexivity.
Qed.

Lemma evaluate_one_task_pawsx (seqeval : Seqeval) (fs : filesystem)
    (prediction_file label_file : string) (language : option string)
    (score_lg : dict Q) :
  evaluate_one_task (module_tables seqeval) fs prediction_file label_file "pawsx" language
  = Ok score_lg ->
  score_lg
  = [("f1", f1_score seqeval (labels_at fs label_file) (labels_at fs prediction_file) * 100);
     ("precision",
      precision_score seqeval (labels_at fs label_file) (labels_at fs prediction_file) * 100);
     ("recall",
      recall_score seqeval (labels_at fs label_file) (labels_at fs prediction_file) * 100)]%Q
  /\ dict_has prediction_file (files fs) = true
  /\ dict_has label_file (files fs) = true
  /\ length (labels_at fs prediction_file) = length (labels_at fs label_file).
Proof.
  intros Hrun.
  destruct (evaluate_one_task_inversion
              (module_tables seqeval) fs prediction_file label_file "pawsx" language
              score_lg Hrun)
    as (read & score & predictions & labels & Hread & Hp & Hl & Hcount & Hscore & Hres).
  injection Hread as <-. injection Hscore as <-.
  unfold labels_at. rewrite Hp, Hl.
  destruct Hcount as [Hcount|Hcount]; [discriminate|].
  unfold f1 in Hres. injection Hres as <-.
  split; [reflexivity|]. split; [|split; [|exact Hcount]].
  - unfold dict_has. unfold read_label, open_lines in Hp.
    destruct (dict_get prediction_file (files fs)); [reflexivity|discriminate].
  - unfold dict_has. unfold read_label, open_lines in Hl.
    destruct (dict_get label_file (files fs)); [reflexivity|discriminate].
Qed.

Lemma add_scores_pawsx (seqeval : Seqeval) (fs : filesystem)
    (prediction_folder label_folder suffix : string) (prefix : list string) (lg : string) :
  ~ In lg prefix ->
  add_scores (pawsx_score seqeval fs prediction_folder label_folder suffix prefix) lg
    [("f1", f1_score seqeval
              (labels_at fs (path_join label_folder ["pawsx"; test_file lg suffix]))
              (labels_at fs (path_join prediction_folder ["pawsx"; test_file lg suffix]))
            * 100);
     ("precision", precision_score seqeval
              (labels_at fs (path_join label_folder ["pawsx"; test_file lg suffix]))
              (labels_at fs (path_join prediction_folder ["pawsx"; test_file lg suffix]))
            * 100);
     ("recall", recall_score seqeval
              (labels_at fs (path_join label_folder ["pawsx"; test_file lg suffix]))
              (labels_at fs (path_join prediction_folder ["pawsx"; test_file lg suffix]))
            * 100)]%Q
  = pawsx_score seqeval fs prediction_folder label_folder suffix (prefix ++ [lg])%list.
Proof.
  intros Hfresh. destruct prefix as [|l0 prefix]; [reflexivity|].
  unfold add_scores, set_score, pawsx_score.
  cbn [fold_left fst snd dict_get dict_set String.eqb Ascii.eqb Bool.eqb app].
  rewrite !(per_language_snoc fs prediction_folder label_folder suffix _ _ lg Hfresh).
  reflexivity.
Qed.

Lemma score_languages_pawsx (seqeval : Seqeval) (fs : filesystem)
    (prediction_folder label_folder suffix : string) (langs : list string) :
  forall prefix score,
    NoDup (prefix ++ langs)%list ->
    score_languages (module_tables seqeval) fs prediction_folder label_folder
                    "pawsx" suffix langs
                    (pawsx_score seqeval fs prediction_folder label_folder suffix prefix)
    = Ok score ->
    score = pawsx_score seqeval fs prediction_folder label_folder suffix
                        (prefix ++ langs)%list
    /\ forall lg, In lg langs ->
         dict_has (path_join prediction_folder ["pawsx"; test_file lg suffix]) (files fs)
         = true
         /\ dict_has (path_join label_folder ["pawsx"; test_file lg suffix]) (files fs)
            = true
         /\ length (labels_at fs (path_join prediction_folder
                                            ["pawsx"; test_file lg suffix]))
            = length (labels_at fs (path_join label_folder
                                              ["pawsx"; test_file lg suffix])).
Proof.
  induction langs as [|lg rest IH]; intros prefix score Hnd Hrun.
  - cbn in Hrun. injection Hrun as <-. rewrite app_nil_r. split; [reflexivity|].
    intros lg [].
  - cbn [score_languages] in Hrun.
    destruct (evaluate_one_task (module_tables seqeval) fs
                (path_join prediction_folder ["pawsx"; test_file lg suffix])
                (path_join label_folder ["pawsx"; test_file lg suffix])
                "pawsx" (Some lg)) as [score_lg|e] eqn:E; [|discriminate].
    cbn [bind] in Hrun.
    destruct (evaluate_one_task_pawsx _ _ _ _ _ _ E) as (-> & Hp & Hl & Hlen).
    assert (~ In lg prefix) as Hfresh.
    { apply NoDup_remove_2 in Hnd. intros H. apply Hnd. apply in_or_app. left. exact H. }
    rewrite (add_scores_pawsx seqeval fs prediction_folder label_folder suffix prefix lg
               Hfresh) in Hrun.
    destruct (IH (prefix ++ [lg])%list score) as [Hscore Hfiles].
    + rewrite <- app_assoc. exact Hnd.
    + exact Hrun.
    + split; [rewrite Hscore, <- app_assoc; reflexivity|].
      intros lg' [<-|Hin]; [repeat split; assumption|exact (Hfiles lg' Hin)].
Qed.

(** X8: on the module's tables, when the loop over distinct languages ends
    normally for [pawsx], every language of the list had both files, with
    the same number of examples in each, and [score] holds exactly three
    entries, [f1], [precision] and [recall]: each maps every language of
    the list, in the order of the list, to 100 times what the scorer gives
    for that language's labels and predictions. *)
Theorem score_languages_scores_every_language (seqeval : Seqeval) (fs : filesystem)
    (prediction_folder label_folder suffix : string) (langs : list string)
    (score : dict (dict Q)) :
  NoDup langs ->
  score_languages (module_tables seqeval) fs prediction_folder label_folder
                  "pawsx" suffix langs [] = Ok score ->
  score = pawsx_score seqeval fs prediction_folder label_folder suffix langs
  /\ forall lg, In lg langs ->
       dict_has (path_join prediction_folder ["pawsx"; test_file lg suffix]) (files fs)
       = true
       /\ dict_has (path_join label_folder ["pawsx"; test_file lg suffix]) (files fs)
          = true
       /\ length (labels_at fs (path_join prediction_folder ["pawsx"; test_file lg suffix]))
          = length (labels_at fs (path_join label_folder ["pawsx"; test_file lg suffix])).
Proof.
  intros Hnd Hrun.
  exact (score_languages_pawsx seqeval fs prediction_folder label_folder suffix langs
           [] score Hnd Hrun).
Qed.

Lemma score_languages_scores_every_language_witness :
  two_language_score
  = pawsx_score (constant_seqeval (9 # 10)) complete_run "predictions" "labels" "tsv"
                ["en"; "fr"]
  /\ forall lg, In lg ["en"; "fr"] ->
       dict_has (path_join "predictions" ["pawsx"; test_file lg "tsv"]) (files complete_run)
       = true
       /\ dict_has (path_join "labels" ["pawsx"; test_file lg "tsv"]) (files complete_run)
          = true
       /\ length (labels_at complete_run
                    (path_join "predictions" ["pawsx"; test_file lg "tsv"]))
          = length (labels_at complete_run
                      (path_join "labels" ["pawsx"; test_file lg "tsv"])).
Proof.
  apply (score_languages_scores_every_language (constant_seqeval (9 # 10)) complete_run
           "predictions" "labels" "tsv" ["en"; "fr"] two_language_score).
  - repeat constructor; cbn; intuition discriminate.
  - reflexivity.
Defined.

(** ** The loop over the tasks *)

Lemma dict_keys_set_fresh {V : Type} (k : string) (v : V) (d : dict V) :
  ~ In k (dict_keys d) -> dict_keys (dict_set k v d) = (dict_keys d ++ [k])%list.
Proof.
  intros H. rewrite (dict_set_fresh k v d H). unfold dict_keys.
  rewrite map_app. reflexivity.
Qed.

Lemma evaluate_tasks_entries (tables : Tables) (fs : filesystem)
    (prediction_folder label_folder : string) (prediction_tasks label_tasks : list string)
    (items : dict (list string)) :
  NoDup (dict_keys items) ->
  forall detailed_scores detailed_scores',
    (forall task, In task (dict_keys items) -> ~ In task (dict_keys detailed_scores)) ->
    evaluate_tasks tables fs prediction_folder label_folder prediction_tasks label_tasks
                   items detailed_scores = Ok detailed_scores' ->
    dict_keys detailed_scores'
    = (dict_keys detailed_scores
       ++ filter (fun task => mem task prediction_tasks && mem task label_tasks)
                 (dict_keys items))%list
    /\ (forall task, ~ In task (dict_keys items) ->
          dict_get task detailed_scores' = dict_get task detailed_scores)
    /\ (forall task langs,
          In (task, langs) items ->
          mem task prediction_tasks && mem task label_tasks = true ->
          exists score,
            evaluate_task tables fs prediction_folder label_folder task langs = Ok score
            /\ dict_get task detailed_scores' = Some score).
Proof.
  induction items as [|[task0 langs0] rest IH]; intros Hnd d d' Hfresh Hrun.
  - cbn in Hrun. injection Hrun as <-. cbn. rewrite app_nil_r.
    split; [reflexivity|]. split; [reflexivity|]. intros task langs [].
  - cbn [dict_keys map fst] in Hnd. inversion Hnd as [|? ? Hnotin Hnd']; subst.
    cbn [evaluate_tasks] in Hrun. cbn [dict_keys map fst filter].
    destruct (mem task0 prediction_tasks && mem task0 label_tasks) eqn:Hel.
    + destruct (evaluate_task tables fs prediction_folder label_folder task0 langs0)
        as [score0|e] eqn:Hbody; cbn [bind] in Hrun; [|discriminate].
      assert (~ In task0 (dict_keys d)) as Hfresh0 by (apply Hfresh; left; reflexivity).
      destruct (IH Hnd' (dict_set task0 score0 d) d') as (Hkeys & Hframe & Hentries).
      * intros task Hin Hin'. apply dict_keys_set in Hin'. destruct Hin' as [->|Hin'].
        -- contradiction.
        -- apply (Hfresh task); [right; exact Hin|exact Hin'].
      * exact Hrun.
      * split; [|split].
        -- rewrite Hkeys, (dict_keys_set_fresh task0 score0 d Hfresh0), <- app_assoc.
           reflexivity.
        -- intros task Hin. rewrite Hframe by (intros H; apply Hin; right; exact H).
           apply dict_get_set_other. intros ->. apply Hin. left. reflexivity.
        -- intros task langs [[= -> ->]|Hin] Helig.
           ++ exists score0. split; [exact Hbody|].
              rewrite (Hframe task Hnotin). apply dict_get_set_same.
           ++ exact (Hentries task langs Hin Helig).
    + destruct (IH Hnd' d d') as (Hkeys & Hframe & Hentries).
      * intros task Hin. apply Hfresh. right. exact Hin.
      * exact Hrun.
      * split; [exact Hkeys|]. split.
        -- intros task Hin. apply Hframe. intros H. apply Hin. right. exact H.
        -- intros task langs [[= -> ->]|Hin] Helig; [congruence|].
           exact (Hentries task langs Hin Helig).
Qed.

(** X10: when the loop over [TASK2LANGS] ends normally, [detailed_scores]
    has one entry for each registered task found in both roots, in the
    order of the table, and no other entry: folders of unregistered tasks
    and tasks missing from one root are passed over.  Each entry is what
    the body of the loop returned for that task. *)
Theorem evaluate_tasks_scores_the_tasks_in_both_roots (tables : Tables) (fs : filesystem)
    (prediction_folder label_folder : string) (prediction_tasks label_tasks : list string)
    (detailed_scores : dict (dict value)) :
  NoDup (dict_keys (TASK2LANGS tables)) ->
  evaluate_tasks tables fs prediction_folder label_folder prediction_tasks label_tasks
                 (TASK2LANGS tables) [] = Ok detailed_scores ->
  dict_keys detailed_scores
  = filter (fun task => mem task prediction_tasks && mem task label_tasks)
           (dict_keys (TASK2LANGS tables))
  /\ (forall task langs,
        In (task, langs) (TASK2LANGS tables) ->
        mem task prediction_tasks && mem task label_tasks = true ->
        exists score,
          evaluate_task tables fs prediction_folder label_folder task langs = Ok score
          /\ dict_get task detailed_scores = Some score).
Proof.
  intros Hnd Hrun.
  destruct (evaluate_tasks_entries tables fs prediction_folder label_folder
              prediction_tasks label_tasks (TASK2LANGS tables) Hnd [] detailed_scores)
    as (Hkeys & _ & Hentries).
  - intros task _ [].
  - exact Hrun.
  - split; [exact Hkeys|exact Hentries].
Qed.

Lemma evaluate_tasks_scores_the_tasks_in_both_roots_witness :
  exists detailed_scores,
    evaluate_tasks (tables_with_xnli (constant_seqeval (9 # 10))) complete_two_task_run
      "predictions" "labels" ["pawsx"; "xnli"] ["udpos"; "xnli"; "pawsx"]
      (TASK2LANGS (tables_with_xnli (constant_seqeval (9 # 10)))) []
    = Ok detailed_scores
    /\ dict_keys detailed_scores = ["pawsx"; "xnli"].
Proof.
  destruct (evaluate_tasks (tables_with_xnli (constant_seqeval (9 # 10)))
              complete_two_task_run "predictions" "labels" ["pawsx"; "xnli"]
              ["udpos"; "xnli"; "pawsx"]
              (TASK2LANGS (tables_with_xnli (constant_seqeval (9 # 10)))) [])
    as [detailed_scores|e] eqn:E.
  - exists detailed_scores. split; [reflexivity|].
    rewrite (proj1 (evaluate_tasks_scores_the_tasks_in_both_roots
                      (tables_with_xnli (constant_seqeval (9 # 10)))
                      complete_two_task_run "predictions" "labels" ["pawsx"; "xnli"]
                      ["udpos"; "xnli"; "pawsx"] detailed_scores
                      ltac:(repeat constructor; cbn; intuition discriminate) E)).
    reflexivity.
  - vm_compute in E. discriminate E.
Defined.

(** ** The display logic, further *)

(** X11: a task that reached [detailed_scores] without a number under
    [avg_metric] is not left out of the overall score: when every
    registered task has an entry and one of them lacks that number, the
    display logic raises [TypeError] and returns no overall score at all. *)
Theorem overall_raises_without_avg_metric (tables : Tables)
    (detailed_scores : dict (dict value)) (task : string) (score : dict value) :
  set_eq (distinct (dict_keys (TASK2LANGS tables)))
         (distinct (dict_keys detailed_scores)) = true ->
  In task (dict_keys (TASK2LANGS tables)) ->
  dict_get task detailed_scores = Some score ->
  (forall q, dict_get "avg_metric" score <> Some (Num q)) ->
  overall tables detailed_scores = Raise TypeError.
Proof.
  intros Heq Hin Hget Hnone. unfold overall, overall_all_task. rewrite Heq.
  rewrite sum_avg_metric_TypeError; [reflexivity| |].
  - unfold set_eq in Heq. apply andb_prop in Heq. destruct Heq as [Hsub _].
    apply subset_incl in Hsub. intros t Ht. rewrite <- In_distinct. apply Hsub. exact Ht.
  - exists task. split; [rewrite In_distinct; exact Hin|].
    intros (s & q & Hs & Hq). rewrite Hget in Hs. injection Hs as <-.
    exact (Hnone q Hq).
Qed.

Lemma overall_raises_without_avg_metric_witness :
  overall (module_tables (constant_seqeval 1))
    [("pawsx", [("precision", Langs [("de", 90)]%Q); ("avg_precision", Num 90)])]
  = Raise TypeError.
Proof.
  apply (overall_raises_without_avg_metric (module_tables (constant_seqeval 1))
           [("pawsx", [("precision", Langs [("de", 90)]%Q); ("avg_precision", Num 90)])]
           "pawsx" [("precision", Langs [("de", 90)]%Q); ("avg_precision", Num 90)]).
  - reflexivity.
  - left. reflexivity.
  - reflexivity.
  - intros q. discriminate.
Defined.

Lemma overall_groups_skips (detailed_scores : dict (dict value)) (group : string)
    (groups : dict (list string)) :
  (forall members, In (group, members) groups ->
     exists task, In task members /\ ~ In task (dict_keys detailed_scores)) ->
  forall overall_scores overall_scores',
    overall_groups detailed_scores groups overall_scores = Ok overall_scores' ->
    dict_get group overall_scores' = dict_get group overall_scores.
Proof.
  induction groups as [|[g0 m0] rest IH]; intros Hmissing acc res Hrun.
  - cbn in Hrun. injection Hrun as <-. reflexivity.
  - assert (forall members, In (group, members) rest ->
              exists task, In task members /\ ~ In task (dict_keys detailed_scores))
      as Hrest by (intros members H; apply Hmissing; right; exact H).
    cbn [overall_groups] in Hrun.
    destruct (len (set_diff (distinct m0) (distinct (dict_keys detailed_scores))) =? 0)%Z
      eqn:E.
    + destruct (sum_avg_metric detailed_scores m0 0) as [total|]; cbn [bind] in Hrun;
        [|discriminate].
      destruct (divide total (len m0)) as [q|]; cbn [bind] in Hrun; [|discriminate].
      rewrite (IH Hrest _ _ Hrun). apply dict_get_set_other. intros ->.
      destruct (Hmissing m0 (or_introl eq_refl)) as (task & Hin & Hnot).
      apply Hnot. rewrite <- In_distinct.
      apply (proj1 (set_diff_empty _ _) E). rewrite In_distinct. exact Hin.
    + exact (IH Hrest _ _ Hrun).
Qed.

(** X12: a group is never reported while one of its members has no entry
    in [detailed_scores].  In particular a group naming a task that is not
    registered, as [classification] names [xnli] in the module, can never
    get a score from [evaluate]. *)
Theorem overall_omits_incomplete_group (tables : Tables)
    (detailed_scores : dict (dict value)) (overall_scores : dict Q) (group : string) :
  overall tables detailed_scores = Ok overall_scores ->
  group <> "all_task" ->
  (forall members, In (group, members) (GROUP2TASK tables) ->
     exists task, In task members /\ ~ In task (dict_keys detailed_scores)) ->
  dict_get group overall_scores = None.
Proof.
  intros Hrun Hname Hmissing. unfold overall in Hrun.
  destruct (overall_all_task tables detailed_scores) as [first|] eqn:E;
    cbn [bind] in Hrun; [|discriminate].
  rewrite (overall_groups_skips detailed_scores group (GROUP2TASK tables) Hmissing
             _ _ Hrun).
  unfold overall_all_task in E.
  destruct (set_eq _ _) in E.
  - destruct (sum_avg_metric _ _ _) as [total|] in E; cbn [bind] in E; [|discriminate].
    destruct (divide _ _) as [q|] in E; cbn [bind] in E; [|discriminate].
    injection E as <-. cbn. apply String.eqb_neq in Hname. rewrite Hname. reflexivity.
  - injection E as <-. reflexivity.
Qed.

Lemma overall_omits_incomplete_group_witness :
  overall (module_tables (constant_seqeval 1))
    [("pawsx", [("avg_f1", Num 85); ("avg_metric", Num 85)])]
  = Ok [("all_task", mean [85]%Q)]
  /\ dict_get "classification" [("all_task", mean [85]%Q)] = None.
Proof.
  split; [reflexivity|].
  apply (overall_omits_incomplete_group (module_tables (constant_seqeval 1))
           [("pawsx", [("avg_f1", Num 85); ("avg_metric", Num 85)])]
           [("all_task", mean [85]%Q)] "classification").
  - reflexivity.
  - discriminate.
  - intros members [[= <-]|[]]. exists "xnli". split; [right; left; reflexivity|].
    intros [H|[]]. discriminate H.
Defined.

(** ** From the languages to the task's summary *)

Lemma update_with_averages_get (score : dict (dict Q)) (avg_score : dict Q) (k : string) :
  NoDup (dict_keys avg_score) ->
  dict_get k (update_with_averages score avg_score)
  = match dict_get k avg_score with
    | Some q => Some (Num q)
    | None => option_map Langs (dict_get k score)
    end.
Proof.
  intros Hnd. unfold update_with_averages.
  rewrite dict_get_update by (rewrite dict_keys_map; exact Hnd).
  rewrite !dict_get_map. destruct (dict_get k avg_score); reflexivity.
Qed.

(** X13: on tables that declare the ["qa"] group, for a task outside that
    group whose languages were all scored, the body of the task loop ends
    normally and the task's [avg_metric] is the arithmetic mean over the
    languages (the scores added up, over how many they are) of its [f1]
    scores when the metric gave an [f1], and of its [accuracy] scores when
    it gave an [accuracy] and no [f1]. *)
Theorem evaluate_task_summary_is_mean (tables : Tables) (fs : filesystem)
    (prediction_folder label_folder task : string) (langs qa : list string)
    (score : dict (dict Q)) :
  dict_get "qa" (GROUP2TASK tables) = Some qa ->
  mem task qa = false ->
  score_languages tables fs prediction_folder label_folder task "tsv" langs [] = Ok score ->
  exists final,
    evaluate_task tables fs prediction_folder label_folder task langs = Ok final
    /\ (forall by_lang,
          dict_get "f1" score = Some by_lang ->
          dict_get "avg_metric" final = Some (Num (arithmetic_mean (map snd by_lang))))
    /\ (forall by_lang,
          dict_get "f1" score = None ->
          dict_get "avg_f1" score = None ->
          dict_get "accuracy" score = Some by_lang ->
          dict_get "avg_metric" final = Some (Num (arithmetic_mean (map snd by_lang)))).
Proof.
  intros Hqa Hmem Hrun.
  pose proof (score_languages_scored_over tables fs prediction_folder label_folder task
                "tsv" langs langs [] score (incl_refl _) (scored_over_nil _) Hrun)
    as [Hnd Hall].
  destruct (average_scores_spec score Hnd (fun m d H => proj1 (Hall m d H)) []
              (NoDup_nil _))
    as (avg_score & Havg & Hnd' & Hin & Hframe).
  unfold evaluate_task, dict_item. rewrite Hqa. cbn [bind]. rewrite Hmem, Hrun.
  cbn [bind]. rewrite Havg. cbn [bind].
  rewrite (summary_metric_rule tables task _ qa Hqa), Hmem.
  rewrite !(update_with_averages_get score avg_score _ Hnd').
  destruct (dict_get "f1" score) as [f1_scores|] eqn:Ef1.
  - assert (dict_get "avg_f1" avg_score = Some (mean (dict_values f1_scores))) as ->
      by exact (Hin "f1" f1_scores (dict_get_In _ _ _ Ef1)).
    eexists. split; [reflexivity|]. split.
    + intros by_lang [= <-]. rewrite <- mean_arithmetic_mean. apply dict_get_set_same.
    + intros by_lang H. discriminate H.
  - assert (dict_get "avg_f1" avg_score = None) as Hno.
    { rewrite Hframe; [reflexivity|]. intros m Hm Heq.
      change "avg_f1" with ("avg_" ++ "f1") in Heq.
      apply (avg_name_injective "f1" m) in Heq. subst m.
      apply dict_get_None in Ef1. contradiction. }
    rewrite Hno.
    destruct (dict_get "avg_f1" score) as [d|] eqn:Eavg; cbn [option_map].
    + eexists. split; [reflexivity|]. split; intros by_lang H; discriminate.
    + destruct (dict_get "accuracy" score) as [acc_scores|] eqn:Eacc.
      * assert (dict_get "avg_accuracy" avg_score
                = Some (mean (dict_values acc_scores))) as ->
          by exact (Hin "accuracy" acc_scores (dict_get_In _ _ _ Eacc)).
        eexists. split; [reflexivity|]. split.
        -- intros by_lang H. discriminate H.
        -- intros by_lang _ _ [= <-]. rewrite <- mean_arithmetic_mean.
           apply dict_get_set_same.
      * destruct (match dict_get "avg_accuracy" avg_score with
                  | Some q => Some (Num q)
                  | None => option_map Langs (dict_get "avg_accuracy" score)
                  end);
          (eexists; split; [reflexivity|]; split; intros by_lang; intros; discriminate).
Qed.

Lemma evaluate_task_summary_is_mean_witness :
  exists final,
    evaluate_task (tables_with_xnli (constant_seqeval 1)) complete_two_task_run
      "predictions" "labels" "xnli" ["en"; "de"] = Ok final
    /\ dict_get "avg_metric" final
       = Some (Num ((3 / 3 * 100 + (3 / 3 * 100 + 0)) / inject_Z 2))%Q.
Proof.
  destruct (evaluate_task_summary_is_mean (tables_with_xnli (constant_seqeval 1))
              complete_two_task_run "predictions" "labels" "xnli" ["en"; "de"]
              ["xquad"; "mlqa"; "tydiqa"]
              [("accuracy", [("en", 3 / 3 * 100); ("de", 3 / 3 * 100)]%Q)]
              eq_refl eq_refl eq_refl)
    as (final & Hrun & _ & Hacc).
  exists final. split; [exact Hrun|].
  exact (Hacc [("en", 3 / 3 * 100); ("de", 3 / 3 * 100)]%Q eq_refl eq_refl eq_refl).
Defined.

(** ** The normalisation helper, further *)

Lemma list_item_nth (items : list string) (i : nat) :
  (i < length items)%nat -> list_item items i = Ok (nth i items "").
Proof.
  intros H. unfold list_item. rewrite (nth_error_nth' items "" H). reflexivity.
Qed.

Lemma collect_rows_step (line : string) (rest : list string) (i : nat)
    (data : list (list string)) :
  collect_rows (line :: rest) (S i) data
  = if four_fields line then collect_rows rest (S (S i)) (data ++ [row_of line])%list
    else Raise IndexError.
Proof.
  cbn [collect_rows Nat.eqb]. unfold four_fields, row_of. fold (fields line).
  destruct (4 <=? length (fields line))%nat eqn:E.
  - apply Nat.leb_le in E.
    rewrite !list_item_nth by lia. cbn [bind].
    rewrite !(join_split " "%char). reflexivity.
  - apply Nat.leb_gt in E.
    destruct (fields line) as [|a [|b [|c [|d items]]]]; try reflexivity.
    cbn in E. lia.
Qed.

Lemma collect_rows_rows (lines : list string) :
  forall i data,
    collect_rows lines (S i) data
    = if forallb four_fields lines then Ok (data ++ map row_of lines)%list
      else Raise IndexError.
Proof.
  induction lines as [|line rest IH]; intros i data.
  - cbn. rewrite app_nil_r. reflexivity.
  - rewrite collect_rows_step. cbn [forallb map].
    destruct (four_fields line); [|reflexivity].
    rewrite IH. cbn [andb]. rewrite <- app_assoc. reflexivity.
Qed.

(** X14: given the one argument it declares, the helper drops the first
    line of the file whatever it holds.  When every other line has at
    least four tab-separated fields and [outfile] can be opened for
    writing, it writes one row for each of them: the second and third
    fields stripped, and the fourth; the first field and any beyond the
    fourth are not written.  When [outfile] cannot be opened it raises the
    error of [open] and writes nothing; a line with fewer than four fields
    makes it raise [IndexError] before [outfile] is opened; and an empty
    file gives an empty output file. *)
Theorem preprocess_one_file_writes_one_row_per_line (outfile infile text : string)
    (fs : filesystem) :
  dict_get infile (files fs) = Some text ->
  (readlines (universal_newlines text) = [] ->
   open_for_writing fs outfile = Ok tt ->
   _preprocess_one_file outfile [infile] fs = (Ok tt, with_file fs outfile ""))
  /\ (forall header lines,
        readlines (universal_newlines text) = header :: lines ->
        (forallb four_fields lines = true ->
         open_for_writing fs outfile = Ok tt ->
         _preprocess_one_file outfile [infile] fs
         = (Ok tt,
            with_file fs outfile (String.concat "" (map writerow (map row_of lines)))))
        /\ (forallb four_fields lines = true ->
            forall e, open_for_writing fs outfile = Raise e ->
            _preprocess_one_file outfile [infile] fs = (Raise e, fs))
        /\ (forallb four_fields lines = false ->
            _preprocess_one_file outfile [infile] fs = (Raise IndexError, fs))).
Proof.
  intros Hfile. unfold _preprocess_one_file, open_lines, write_file.
  rewrite Hfile. cbn [bind].
  split.
  - intros -> ->. reflexivity.
  - intros header lines ->. cbn [collect_rows Nat.eqb]. rewrite collect_rows_rows.
    split; [|split].
    + intros -> ->. reflexivity.
    + intros -> e ->. reflexivity.
    + intros ->. reflexivity.
Qed.

Lemma preprocess_one_file_writes_one_row_per_line_witness :
  _preprocess_one_file "paws_x/train-en.tsv" ["x-final/en/train.tsv"] prepared_run
  = (Ok tt,
     with_file prepared_run "paws_x/train-en.tsv"
       (String.concat ""
          (map writerow
             (map row_of ["7" ++ TAB ++ "A  b" ++ TAB ++ "c d" ++ TAB ++ "1" ++ NL]))))
  /\ _preprocess_one_file "paws_x/train-en.tsv" ["x-final/en/train.tsv"] raw_run
     = (Raise (FileNotFoundError "paws_x/train-en.tsv"), raw_run).
Proof.
  split.
  - apply (proj1 (proj2 (preprocess_one_file_writes_one_row_per_line
                    "paws_x/train-en.tsv" "x-final/en/train.tsv" raw_text prepared_run
                    eq_refl)
             ("id" ++ TAB ++ "sentence1" ++ TAB ++ "sentence2" ++ TAB ++ "label" ++ NL)
             ["7" ++ TAB ++ "A  b" ++ TAB ++ "c d" ++ TAB ++ "1" ++ NL] eq_refl)).
    + reflexivity.
    + reflexivity.
  - apply (proj1 (proj2 (proj2 (preprocess_one_file_writes_one_row_per_line
                    "paws_x/train-en.tsv" "x-final/en/train.tsv" raw_text raw_run
                    eq_refl)
             ("id" ++ TAB ++ "sentence1" ++ TAB ++ "sentence2" ++ TAB ++ "label" ++ NL)
             ["7" ++ TAB ++ "A  b" ++ TAB ++ "c d" ++ TAB ++ "1" ++ NL] eq_refl))).
    + reflexivity.
    + reflexivity.
Defined.

(** X15: whatever its arguments, the helper leaves the directories and
    every file other than [outfile] as they were.  When it raises, for a
    missing input file, a short line, an [outfile] that cannot be opened
    or a wrong number of arguments, it has written nothing; it ends
    normally only when [outfile] could be opened, and [outfile] then
    exists. *)
Theorem preprocess_one_file_only_writes_outfile (outfile : string) (args : list string)
    (fs fs' : filesystem) (r : result unit) :
  _preprocess_one_file outfile args fs = (r, fs') ->
  dirs fs' = dirs fs
  /\ (forall path, path <> outfile ->
        dict_get path (files fs') = dict_get path (files fs))
  /\ (raises r = true -> fs' = fs)
  /\ (raises r = false ->
      open_for_writing fs outfile = Ok tt /\ dict_has outfile (files fs') = true).
Proof.
  unfold _preprocess_one_file, write_file. intros Hrun.
  destruct args as [|infile [|second more]].
  - injection Hrun as <- <-. repeat split; try reflexivity; discriminate.
  - destruct (lines <- open_lines fs infile ;; collect_rows lines 0 []) as [data|e].
    + destruct (open_for_writing fs outfile) as [[]|e]; cbn [bind] in Hrun.
      * injection Hrun as <- <-. split; [reflexivity|]. split; [|split].
        -- intros path Hne. cbn. apply dict_get_set_other. exact Hne.
        -- discriminate.
        -- intros _. split; [reflexivity|].
           unfold dict_has. cbn. rewrite dict_get_set_same. reflexivity.
      * injection Hrun as <- <-. repeat split; try reflexivity; discriminate.
    + injection Hrun as <- <-. repeat split; try reflexivity; discriminate.
  - injection Hrun as <- <-. repeat split; try reflexivity; discriminate.
Qed.

Lemma preprocess_one_file_only_writes_outfile_witness :
  dirs (with_file prepared_run "paws_x/train-en.tsv"
          ("A  b" ++ TAB ++ "c d" ++ TAB ++ "1" ++ CR ++ NL)) = dirs prepared_run
  /\ dict_get "x-final/en/train.tsv"
       (files (with_file prepared_run "paws_x/train-en.tsv"
                 ("A  b" ++ TAB ++ "c d" ++ TAB ++ "1" ++ CR ++ NL)))
     = dict_get "x-final/en/train.tsv" (files prepared_run)
  /\ open_for_writing prepared_run "paws_x/train-en.tsv" = Ok tt.
Proof.
  destruct (preprocess_one_file_only_writes_outfile "paws_x/train-en.tsv"
              ["x-final/en/train.tsv"] prepared_run
              (with_file prepared_run "paws_x/train-en.tsv"
                 ("A  b" ++ TAB ++ "c d" ++ TAB ++ "1" ++ CR ++ NL))
              (Ok tt) eq_refl) as (Hdirs & Hfiles & _ & Hok).
  split; [exact Hdirs|]. split; [apply Hfiles; discriminate|].
  exact (proj1 (Hok eq_refl)).
Defined.
